(** * newton_forces_mcp: force, vector, diagram and expression tools

    A shallow embedding of the computational core of the repository
    (vectors/vectors.py, forces/forces.py, diagram/diagram.py and
    math/math_server.py) together with the properties its specification
    states about it.

    Conventions of the embedding.
    - Python numbers (int and float alike) are real numbers: [R] with exact
      arithmetic.  Rounding, overflow, signed zeros, infinities and NaN of
      binary64 are outside this model.  Where a property turns on rounding,
      the function is given a second time over binary64 numbers, the
      kernel's primitive floats: [Binary64].
    - Python values of type [Any] (what the JSON tool layer hands over) are
      the inductive type [pyval]; a [dict] with string keys is a
      [gmap string pyval].
    - Python text is a [string] of bytes; of the white space of [str.split]
      only the ASCII characters are modelled.
    - A call either returns or raises: [outcome].
    - Functions of third-party libraries (the [float] builtin on text, sympy,
      pint, the svgwrite serialiser) are fields of an interface; the
      theorems hold for every implementation of the interface.
    - A tool is a function of its arguments.  That the renderer reads and
      leaves nothing else is a property of its own: [Process] gives
      [draw_free_body] a second time, statement by statement, as a program
      over the state of the process (clock, random generator, svgwrite's
      id counter, heap of mutable drawing objects). *)

From Stdlib Require Import Reals Machin Lra Lia ZArith Zfloor Ascii String DecimalString.
From Stdlib Require PrimFloat.
From stdpp Require Import base option list gmap strings.

Set Warnings "-register-all".

(** ** Python values and outcomes *)

Inductive pyval :=
| PNone
| PBool (b : bool)
| PNum (r : R)
| PStr (s : string)
| PList (l : list pyval)
| PDict (d : gmap string pyval).

Inductive exn := TypeError | ValueError | IndexError | KeyError.

Inductive outcome (A : Type) :=
| Returned (a : A)
| Raised (e : exn).
Arguments Returned {A} a.
Arguments Raised {A} e.

#[global] Instance outcome_ret : MRet outcome := fun A a => Returned a.
#[global] Instance outcome_bind : MBind outcome := fun A B f m =>
  match m with
  | Returned a => f a
  | Raised e => Raised e
  end.
#[global] Instance outcome_fmap : FMap outcome := fun A B f m =>
  match m with
  | Returned a => Returned (f a)
  | Raised e => Raised e
  end.

(** [try: ... except Exception: ...] around a computation. *)
Definition try_except {A} (body : outcome A) (handler : exn -> outcome A) : outcome A :=
  match body with
  | Returned a => Returned a
  | Raised e => handler e
  end.

(** [xs[i]] on a list: IndexError out of range. *)
Definition py_index {A} (xs : list A) (i : nat) : outcome A :=
  match xs !! i with
  | Some x => Returned x
  | None => Raised IndexError
  end.

(** [d[k]] on a dict: KeyError when absent. *)
Definition py_getitem (d : gmap string pyval) (k : string) : outcome pyval :=
  match d !! k with
  | Some v => Returned v
  | None => Raised KeyError
  end.

(** [k in d]. *)
Definition py_has_key (d : gmap string pyval) (k : string) : bool :=
  bool_decide (is_Some (d !! k)).

(** ** Methods of [str] used by the tools *)

Module PyStr.

(** [sub in s]. *)
Fixpoint contains (sub s : string) : bool :=
  String.prefix sub s ||
  match s with
  | EmptyString => false
  | String _ s' => contains sub s'
  end.

Definition snoc (s : string) (c : ascii) : string := s +:+ String c EmptyString.

(** [s.split(sep)] for a non-empty [sep]: [skip] counts the characters of
    the separator occurrence still to be passed over, [cur] is the piece
    being collected. *)
Fixpoint split_go (sep s : string) (skip : nat) (cur : string) : list string :=
  match s with
  | EmptyString => [cur]
  | String c s' =>
      match skip with
      | S k => split_go sep s' k cur
      | O =>
          if String.prefix sep s
          then cur :: split_go sep s' (String.length sep - 1) EmptyString
          else split_go sep s' 0 (snoc cur c)
      end
  end.

Definition split (sep s : string) : list string := split_go sep s 0 EmptyString.

(** The ASCII characters for which [str.isspace] holds. *)
Definition is_space (c : ascii) : bool :=
  let n := nat_of_ascii c in
  ((9 <=? n) && (n <=? 13) || (28 <=? n) && (n <=? 32))%nat.

Definition flush (cur : string) (rest : list string) : list string :=
  match cur with
  | EmptyString => rest
  | _ => cur :: rest
  end.

(** [s.split()]: the maximal runs of non-space characters. *)
Fixpoint split_ws_go (s cur : string) : list string :=
  match s with
  | EmptyString => flush cur []
  | String c s' =>
      if is_space c then flush cur (split_ws_go s' EmptyString)
      else split_ws_go s' (snoc cur c)
  end.

Definition split_ws (s : string) : list string := split_ws_go s EmptyString.

(** [str(n)] for a non-negative integer. *)
Definition of_N (n : N) : string := NilZero.string_of_uint (N.to_uint n).

End PyStr.

(** ** The [math] module over the reals *)

Module PyMath.
Open Scope R_scope.

Definition radians (d : R) : R := d * (PI / 180).
Definition degrees (r : R) : R := r * (180 / PI).
Definition hypot (x y : R) : R := sqrt (x * x + y * y).

(** [math.atan2(y, x)]: the angle of the point (x, y), in (-PI, PI]. *)
Definition atan2 (y x : R) : R :=
  if Rlt_dec 0 x then atan (y / x)
  else if Rlt_dec x 0 then
    if Rle_dec 0 y then atan (y / x) + PI else atan (y / x) - PI
  else if Rlt_dec 0 y then PI / 2
  else if Rlt_dec y 0 then - (PI / 2)
  else 0.

(** [a % m] on floats: the remainder has the sign of [m]. *)
Definition fmod (a m : R) : R := a - m * IZR (Zfloor (a / m)).

(** [max(a, b)]. *)
Definition max (a b : R) : R := if Rlt_dec a b then b else a.

End PyMath.

(** ** Fixed-point formatting: the [:.nf] format specifications *)

Module PyFormat.
Open Scope R_scope.

(** Nearest integer, ties to even. *)
Definition round_half_even (x : R) : Z :=
  let f := Zfloor x in
  let d := x - IZR f in
  if Rlt_dec d (1 / 2) then f
  else if Rlt_dec (1 / 2) d then (f + 1)%Z
  else if Z.even f then f else (f + 1)%Z.

Definition pad_zeros (width : nat) (s : string) : string :=
  String.concat "" (replicate (width - String.length s) "0"%string) +:+ s.

(** The digits of [n / 10^digits] with [digits] decimals, [n >= 0]. *)
Definition fixed_digits (digits : nat) (n : Z) : string :=
  let scale := (10 ^ Z.of_nat digits)%Z in
  PyStr.of_N (Z.to_N (n / scale)) +:+ "." +:+
  pad_zeros digits (PyStr.of_N (Z.to_N (n mod scale))).

(** [format(x, ".{digits}f")] for [digits > 0]. *)
Definition fixed (digits : nat) (x : R) : string :=
  (if Rlt_dec x 0 then "-" else "")%string +:+
  fixed_digits digits (round_half_even (Rabs x * 10 ^ digits)).

End PyFormat.

Definition newline : string := String (ascii_of_nat 10) EmptyString.

(** ** vectors/vectors.py *)

Module Vectors.
Import PyMath.
Open Scope R_scope.

(** The dict [{"magnitude": .., "angle_deg": ..}] that [to_magnitude_angle]
    returns. *)
Record polar := { magnitude : R; angle_deg : R }.

Definition from_magnitude_angle (magnitude angle_deg : R) : R * R :=
  let angle_rad := radians angle_deg in
  let x := magnitude * cos angle_rad in
  let y := magnitude * sin angle_rad in
  (x, y).

Definition to_magnitude_angle (x y : R) : polar :=
  let magnitude := hypot x y in
  let angle := degrees (atan2 y x) in
  let angle := if Rlt_dec angle 0 then angle + 360 else angle in
  {| magnitude := magnitude; angle_deg := angle |}.

Definition to_components (magnitude angle_deg : R) : string :=
  let comp := from_magnitude_angle magnitude angle_deg in
  "Components: (" +:+ PyFormat.fixed 2 (fst comp) +:+ " N, " +:+
  PyFormat.fixed 2 (snd comp) +:+ " N)".

Definition to_polar (x y : R) : string :=
  let mag_angle := to_magnitude_angle x y in
  "Magnitude: " +:+ PyFormat.fixed 2 (magnitude mag_angle) +:+ " N" +:+ newline +:+
  "Direction: " +:+ PyFormat.fixed 2 (angle_deg mag_angle) +:+ "° CCW from +x axis".

End Vectors.

(** ** forces/forces.py *)

Module Forces.
Import PyMath.
Open Scope R_scope.

Definition GRAVITY : R := 98 / 10.

Definition weight (mass_kg gravity : R) : R := mass_kg * gravity.

Definition friction (normal_force coefficient : R) : R := normal_force * coefficient.

Definition applied_force (force : R) : R := force.

(** [weight] and [mass] default to [None]; [gravity] defaults to
    [GRAVITY]. *)
Definition tension (weight mass : option R) (gravity : R) : R :=
  match weight with
  | Some w => w
  | None =>
      match mass with
      | Some m => m * gravity
      | None => 0
      end
  end.

Definition normal_force (mass gravity incline_angle_deg : R) : R :=
  let theta := radians incline_angle_deg in
  mass * gravity * (if Req_dec_T incline_angle_deg 0 then 1 else cos theta).

(** [sum(forces)]. *)
Definition net_force (forces : list R) : R := fold_left Rplus forces 0.

End Forces.

(** ** The svgwrite drawing built by the renderer *)

Module Svg.

Definition point : Type := R * R.

Inductive element :=
| Circle (center : point) (r : R) (fill stroke : string) (stroke_width : R)
| Text (text : pyval) (insert : point) (font_size fill : string)
| Line (start end_ : point) (stroke : string) (stroke_width : R) (marker_end : string)
| Polygon (points : list point) (fill : string)
| Marker (insert size : point) (orient id : string) (children : list element).

Record Drawing := {
  size : point;
  defs : list element;
  elements : list element
}.

Definition new_drawing (size : point) : Drawing :=
  {| size := size; defs := []; elements := [] |}.

(** [dwg.add(e)] *)
Definition add (dwg : Drawing) (e : element) : Drawing :=
  {| size := size dwg; defs := defs dwg; elements := elements dwg ++ [e] |}.

(** [dwg.defs.add(e)] *)
Definition defs_add (dwg : Drawing) (e : element) : Drawing :=
  {| size := size dwg; defs := defs dwg ++ [e]; elements := elements dwg |}.

(** [marker.get_funciri()] of a marker whose id is set. *)
Definition get_funciri (id : string) : string := "url(#" +:+ id +:+ ")".

Definition is_line (e : element) : bool :=
  match e with
  | Line _ _ _ _ _ => true
  | _ => false
  end.

(** The arrows of a drawing are its line elements. *)
Definition arrows (dwg : Drawing) : nat := length (filter is_line (elements dwg)).

End Svg.

(** ** Third-party functions the tools call *)

(** The JSON object [{"magnitude": m, "angle_deg": a}]. *)
Definition polar_dict (m a : R) : pyval :=
  PDict (<["magnitude" := PNum m]> (<["angle_deg" := PNum a]> ∅)).

(** The JSON array [[x, y]]. *)
Definition components (x y : R) : pyval := PList [PNum x; PNum y].

(** The forces [[[3, 4], [0, 5]]]. *)
Definition example_forces : list pyval := [components 3 4; components 0 5].

Class PyLib := {
  (** [float(s)] on a str; [None] stands for the ValueError. *)
  float_of_str : string -> option R;
  (** [float(sp.sympify(s))]; [None] stands for any exception. *)
  sympify_float : string -> option R;
  (** [Drawing.tostring()] of svgwrite. *)
  tostring : Svg.Drawing -> string
}.

(** ** diagram/diagram.py *)

Module Diagram.
Import PyMath Svg.
Open Scope R_scope.

Section WithLib.
Context {lib : PyLib}.

(** A value used as an operand of float arithmetic or passed to a [math]
    function: numbers (and bools, which are ints) only. *)
Definition py_number (v : pyval) : outcome R :=
  match v with
  | PNum r => Returned r
  | PBool b => Returned (if b then 1 else 0)
  | _ => Raised TypeError
  end.

(** The builtin [float(v)]. *)
Definition py_float (v : pyval) : outcome R :=
  match v with
  | PNum r => Returned r
  | PBool b => Returned (if b then 1 else 0)
  | PStr s =>
      match float_of_str s with
      | Some r => Returned r
      | None => Raised ValueError
      end
  | _ => Raised TypeError
  end.

(** The body of the [try] of [parse_vector] on a str that contains "at". *)
Definition parse_text (vec : string) : outcome (R * R) :=
  after_eq ← py_index (PyStr.split "=" vec) 1;
  mag_tok ← py_index (PyStr.split_ws after_eq) 0;
  mag ← py_float (PStr mag_tok);
  after_at ← py_index (PyStr.split "at" vec) 1;
  angle_tok ← py_index (PyStr.split_ws after_at) 0;
  angle ← py_float (PStr angle_tok);
  let angle_rad := radians angle in
  let x := mag * cos angle_rad in
  let y := mag * sin angle_rad in
  Returned (x, y).

Definition parse_vector (vec : pyval) : outcome (R * R) :=
  match vec with
  | PDict d =>
      if py_has_key d "magnitude" && py_has_key d "angle_deg" then
        a ← py_getitem d "angle_deg";
        a ← py_number a;
        let angle_rad := radians a in
        m ← py_getitem d "magnitude";
        m ← py_number m;
        let x := m * cos angle_rad in
        let y := m * sin angle_rad in
        Returned (x, y)
      else Returned (0, 0)
  | PList [v0; v1] =>
      x ← py_float v0;
      y ← py_float v1;
      Returned (x, y)
  | PStr s =>
      try_except
        (if PyStr.contains "at" s then parse_text s else Returned (0, 0))
        (fun _ => Returned (0, 0))
  | _ => Returned (0, 0)
  end.

(** [vector_label(vec)] with the defaults [name=""] and [unit="N"]. *)
Definition vector_label (vec : R * R) (name unit : string) : string :=
  let mag := hypot (fst vec) (snd vec) in
  let angle := fmod (degrees (atan2 (snd vec) (fst vec)) + 360) 360 in
  name +:+ " (" +:+ PyFormat.fixed 2 mag +:+ " " +:+ unit +:+ " @ " +:+
  PyFormat.fixed 1 angle +:+ "°)".

Definition center : point := (200, 200).

Definition color_cycle : list string :=
  ["red"; "blue"; "green"; "purple"; "orange"; "brown"; "darkcyan"]%string.

Definition arrow_marker : element :=
  Marker (10, 5) (10, 10) "auto" "arrow"
    [Polygon [(0, 0); (10, 5); (0, 10)] "black"].

(** The drawing before the loop over the forces. *)
Definition init_drawing (object_name : string) : Drawing :=
  let dwg := new_drawing (400, 400) in
  let dwg := add dwg (Circle center 20 "lightgrey" "black" 2) in
  let dwg := add dwg (Text (PStr object_name)
                        (fst center - 22, snd center + 45) "16px" "black") in
  defs_add dwg arrow_marker.

(** One iteration of the loop of [draw_free_body]. *)
Definition draw_force (dwg : Drawing) (idx : nat) (force : gmap string pyval)
  : outcome Drawing :=
  v ← py_getitem force "vector";
  vec ← parse_vector v;
  let mag := hypot (fst vec) (snd vec) in
  let angle := atan2 (snd vec) (fst vec) in
  let length := PyMath.max 30 (mag * 30) in
  let x2 := fst center + length * cos angle in
  let y2 := snd center - length * sin angle in
  let color := default ""%string
                 (color_cycle !! (idx mod List.length color_cycle)%nat) in
  let dwg := add dwg (Line center (x2, y2) color 4 (get_funciri "arrow")) in
  let label := default (PStr (vector_label vec "" "N")) (force !! "label") in
  let label_x := (fst center + x2) / 2 + 10 in
  let label_y := (snd center + y2) / 2 - 10 in
  Returned (add dwg (Text label (label_x, label_y) "12px" color)).

Fixpoint draw_forces (dwg : Drawing) (idx : nat) (forces : list (gmap string pyval))
  : outcome Drawing :=
  match forces with
  | [] => Returned dwg
  | force :: rest =>
      dwg ← draw_force dwg idx force;
      draw_forces dwg (S idx) rest
  end.

(** The drawing [dwg] of [draw_free_body] when it reaches its [return]. *)
Definition free_body_drawing (forces : list (gmap string pyval)) (object_name : string)
  : outcome Drawing :=
  draw_forces (init_drawing object_name) 0 forces.

Definition draw_free_body (forces : list (gmap string pyval)) (object_name : string)
  : outcome string :=
  tostring <$> free_body_drawing forces object_name.

(** The tool [free_body]. *)
Definition free_body (forces : list (gmap string pyval)) (object_name : string)
  : outcome string :=
  draw_free_body forces object_name.

(** The values [net_force] formats. *)
Record net_report := { net_x : R; net_y : R; mag : R; angle : R }.

Fixpoint sum_forces (net : R * R) (forces : list pyval) : outcome (R * R) :=
  match forces with
  | [] => Returned net
  | f :: rest =>
      v ← parse_vector f;
      sum_forces (fst net + fst v, snd net + snd v) rest
  end.

Definition net_force_report (forces : list pyval) : outcome net_report :=
  net ← sum_forces (0, 0) forces;
  let mag := hypot (fst net) (snd net) in
  let angle := fmod (degrees (atan2 (snd net) (fst net)) + 360) 360 in
  Returned {| net_x := fst net; net_y := snd net; mag := mag; angle := angle |}.

Definition net_force_text (r : net_report) : string :=
  "Net force: " +:+ PyFormat.fixed 2 (mag r) +:+ " N at " +:+
  PyFormat.fixed 1 (angle r) +:+ "° (from +x axis, CCW)" +:+ newline +:+
  "Components: (" +:+ PyFormat.fixed 2 (net_x r) +:+ " N, " +:+
  PyFormat.fixed 2 (net_y r) +:+ " N)".

Definition net_force (forces : list pyval) : outcome string :=
  net_force_text <$> net_force_report forces.

(** [f"F{idx+1}"] *)
Definition default_label (idx : nat) : pyval :=
  PStr ("F" +:+ PyStr.of_N (N.of_nat (idx + 1))).

Definition labelled (idx : nat) (vector : pyval) : gmap string pyval :=
  <["label" := default_label idx]> (<["vector" := vector]> ∅).

(** What one entry of [forces] appends to [force_dicts]. *)
Definition force_entry (idx : nat) (f : pyval) : list (gmap string pyval) :=
  match f with
  | PDict d =>
      if py_has_key d "label" && py_has_key d "vector" then [d]
      else if py_has_key d "magnitude" && py_has_key d "angle_deg"
           then [labelled idx f]
           else []
  | PList [_; _] => [labelled idx f]
  | PStr s =>
      match sympify_float s with
      | Some mag => [labelled idx (PList [PNum mag; PNum 0])]
      | None => []
      end
  | _ => []
  end.

Fixpoint force_dicts_from (idx : nat) (forces : list pyval) : list (gmap string pyval) :=
  match forces with
  | [] => []
  | f :: rest => force_entry idx f ++ force_dicts_from (S idx) rest
  end.

Definition force_dicts (forces : list pyval) : list (gmap string pyval) :=
  force_dicts_from 0 forces.

Definition smart_drawing (forces : list pyval) (object_name : string) : outcome Drawing :=
  free_body_drawing (force_dicts forces) object_name.

Definition smart_diagram (forces : list pyval) (object_name : string) : outcome string :=
  draw_free_body (force_dicts forces) object_name.

(** *** Notions used to state the properties of [parse_vector] *)

Definition returns {A} (o : outcome A) : bool :=
  match o with
  | Returned _ => true
  | Raised _ => false
  end.

(** The input shapes [parse_vector] has a branch for: a mapping with both
    keys, a list of two elements, and a text on which the [try] body
    reaches its [return]. *)
Definition recognised (vec : pyval) : bool :=
  match vec with
  | PDict d => py_has_key d "magnitude" && py_has_key d "angle_deg"
  | PList l => bool_decide (length l = 2%nat)
  | PStr s => PyStr.contains "at" s && returns (parse_text s)
  | _ => false
  end.

(** What a caller sees of [parse_vector] is its outcome; a failed parse is
    visible to the caller only if that outcome differs from the outcome of
    the genuine zero vector [[0, 0]]. *)
Definition diagnosed (vec : pyval) : Prop :=
  parse_vector vec <> parse_vector (components 0 0).

End WithLib.

End Diagram.

(** ** math/math_server.py *)

Module MathServer.

(** A library call either gives a value or raises an exception whose
    text ([str(exc)]) is [cause]. *)
Inductive attempt (A : Type) :=
| Success (a : A)
| Failure (cause : string).
Arguments Success {A} a.
Arguments Failure {A} cause.

(** The two evaluators behind [evaluate_expression]. *)
Class Evaluators := {
  quantity : Type;
  expression : Type;
  (** pint: [ureg.parse_expression(expr)], [q.to_base_units()] and
      [format(q, "~")]. *)
  parse_expression : string -> attempt quantity;
  to_base_units : quantity -> attempt quantity;
  format_abbrev : quantity -> attempt string;
  (** sympy: [sp.sympify(expr)], [sp.simplify(val)] and [str(val)]. *)
  sympify : string -> attempt expression;
  simplify : expression -> attempt expression;
  str_expression : expression -> attempt string
}.

Inductive library := Pint | SymPy.

(** A computation together with the libraries it called, in order. *)
Record traced (A : Type) := Traced { calls : list library; result : attempt A }.
Arguments Traced {A} calls result.
Arguments calls {A} t.
Arguments result {A} t.

#[global] Instance traced_ret : MRet traced := fun A a => Traced [] (Success a).
#[global] Instance traced_bind : MBind traced := fun A B f m =>
  match result m with
  | Success a => Traced (calls m ++ calls (f a)) (result (f a))
  | Failure cause => Traced (calls m) (Failure cause)
  end.

Definition call {A} (lib : library) (r : attempt A) : traced A := Traced [lib] r.

(** [try: body except Exception as exc: handler(exc)], where the handler
    always returns. *)
Definition try_except {A} (body : traced A) (handler : string -> list library * A)
  : list library * A :=
  match result body with
  | Success a => (calls body, a)
  | Failure cause => (calls body ++ fst (handler cause), snd (handler cause))
  end.

Section WithEvaluators.
Context {ev : Evaluators}.

(** The body of the outer [try]. *)
Definition pint_eval (expr : string) : traced string :=
  res ← call Pint (parse_expression expr);
  base ← call Pint (to_base_units res);
  res_text ← call Pint (format_abbrev res);
  base_text ← call Pint (format_abbrev base);
  mret (expr +:+ " = " +:+ res_text +:+ " = " +:+ base_text).

(** The body of the inner [try]. *)
Definition sympy_eval (expr : string) : traced string :=
  val ← call SymPy (sympify expr);
  simplified ← call SymPy (simplify val);
  text ← call SymPy (str_expression simplified);
  mret (expr +:+ " = " +:+ text).

Definition error_message (pint_exc sympy_exc : string) : string :=
  "Error: Could not evaluate expression. (Pint: " +:+ pint_exc +:+
  "; SymPy: " +:+ sympy_exc +:+ ")".

Definition evaluate_traced (expr : string) : list library * string :=
  try_except (pint_eval expr) (fun pint_exc =>
    try_except (sympy_eval expr) (fun sympy_exc =>
      ([], error_message pint_exc sympy_exc))).

Definition evaluate_expression (expr : string) : string :=
  snd (evaluate_traced expr).

Definition evaluate (expr : string) : string := evaluate_expression expr.

End WithEvaluators.

End MathServer.

(** ** A reference implementation of the interface, for the examples *)

Module Reference.
Import Svg.
Open Scope R_scope.

Definition digit (c : ascii) : option Z :=
  let n := nat_of_ascii c in
  if ((48 <=? n) && (n <=? 57))%nat then Some (Z.of_nat n - 48)%Z else None.

(** Reads a maximal run of decimal digits: the accumulated value, the
    number of digits read and the rest of the text. *)
Fixpoint digits (s : string) (acc : Z) (count : nat) : Z * nat * string :=
  match s with
  | String c s' =>
      match digit c with
      | Some d => digits s' (10 * acc + d)%Z (S count)
      | None => (acc, count, s)
      end
  | EmptyString => (acc, count, s)
  end.

Definition sign (s : string) : bool * string :=
  match s with
  | String "-" s' => (true, s')
  | String "+" s' => (false, s')
  | _ => (false, s)
  end.

Fixpoint lstrip (s : string) : string :=
  match s with
  | String c s' => if PyStr.is_space c then lstrip s' else s
  | EmptyString => s
  end.

Definition strip (s : string) : string :=
  String.rev (lstrip (String.rev (lstrip s))).

Definition exponent (s : string) : option (Z * string) :=
  match s with
  | String ("e" | "E") s' =>
      let '(negative, s') := sign s' in
      let '(e, count, rest) := digits s' 0 0 in
      match count with
      | O => None
      | _ => Some (if negative : bool then (- e)%Z else e, rest)
      end
  | _ => Some (0%Z, s)
  end.

(** [float(s)] on a finite decimal literal: optional sign, digits with an
    optional fraction, optional exponent, surrounded by white space. *)
Definition decimal_literal (s : string) : option R :=
  let '(negative, s) := sign (strip s) in
  let '(int_part, int_count, s) := digits s 0 0 in
  let '(mantissa, frac_count, s) :=
    match s with
    | String "." s' => digits s' int_part 0
    | _ => (int_part, O, s)
    end in
  match (int_count + frac_count)%nat, exponent s with
  | S _, Some (e, EmptyString) =>
      Some ((if negative : bool then -1 else 1) * IZR mantissa *
            powerRZ 10 (e - Z.of_nat frac_count))
  | _, _ => None
  end.

Definition tag (e : element) : string :=
  match e with
  | Circle _ _ fill _ _ => "<circle fill=" +:+ fill +:+ "/>"
  | Text _ _ _ fill => "<text fill=" +:+ fill +:+ "/>"
  | Line _ _ stroke _ marker_end =>
      "<line stroke=" +:+ stroke +:+ " marker-end=" +:+ marker_end +:+ "/>"
  | Polygon _ fill => "<polygon fill=" +:+ fill +:+ "/>"
  | Marker _ _ _ id _ => "<marker id=" +:+ id +:+ "/>"
  end.

(** A serialiser that writes the elements by name and colour only. *)
Definition outline (dwg : Drawing) : string :=
  "<svg><defs>" +:+ String.concat "" (tag <$> defs dwg) +:+ "</defs>" +:+
  String.concat "" (tag <$> elements dwg) +:+ "</svg>".

Definition lib : PyLib :=
  {| float_of_str := decimal_literal;
     sympify_float := decimal_literal;
     tostring := outline |}.

(** Evaluators that know one unit expression and one arithmetic
    expression. *)
Definition evaluators : MathServer.Evaluators :=
  {| MathServer.quantity := string;
     MathServer.expression := string;
     MathServer.parse_expression := fun s =>
       if String.eqb s "5 N" then MathServer.Success s
       else MathServer.Failure "UndefinedUnitError";
     MathServer.to_base_units := fun _ => MathServer.Success "5 kg*m/s**2"%string;
     MathServer.format_abbrev := fun q => MathServer.Success q;
     MathServer.sympify := fun s =>
       if String.eqb s "2 + 2" then MathServer.Success s
       else MathServer.Failure "SympifyError";
     MathServer.simplify := fun _ => MathServer.Success "4"%string;
     MathServer.str_expression := fun e => MathServer.Success e |}.

End Reference.

(** ** The remaining tools of vectors/vectors.py *)

(** The operators [+] and [-] on JSON values. *)
Module PyOps.
Open Scope R_scope.

Definition bool_number (b : bool) : R := if b then 1 else 0.

(** [a + b]: numbers add (a bool is an int), two texts or two lists are
    joined, anything else is a TypeError. *)
Definition add (a b : pyval) : outcome pyval :=
  match a, b with
  | PNum x, PNum y => Returned (PNum (x + y))
  | PNum x, PBool c => Returned (PNum (x + bool_number c))
  | PBool c, PNum y => Returned (PNum (bool_number c + y))
  | PBool c, PBool d => Returned (PNum (bool_number c + bool_number d))
  | PStr s, PStr t => Returned (PStr (s +:+ t))
  | PList l, PList k => Returned (PList (l ++ k))
  | _, _ => Raised TypeError
  end.

(** [a - b]: numbers only. *)
Definition sub (a b : pyval) : outcome pyval :=
  match a, b with
  | PNum x, PNum y => Returned (PNum (x - y))
  | PNum x, PBool c => Returned (PNum (x - bool_number c))
  | PBool c, PNum y => Returned (PNum (bool_number c - y))
  | PBool c, PBool d => Returned (PNum (bool_number c - bool_number d))
  | _, _ => Raised TypeError
  end.

End PyOps.

Module VectorsTools.
Import PyMath Vectors.
Open Scope R_scope.

(** The text [vector_display] writes for the numbers x and y. *)
Definition display_text (x y : R) : string :=
  let mag_angle := to_magnitude_angle x y in
  "Components: (" +:+ PyFormat.fixed 2 x +:+ " N, " +:+ PyFormat.fixed 2 y +:+ " N)" +:+
  newline +:+
  "Magnitude: " +:+ PyFormat.fixed 2 (magnitude mag_angle) +:+ " N" +:+ newline +:+
  "Direction: " +:+ PyFormat.fixed 2 (angle_deg mag_angle) +:+ "° CCW from +x axis".

(** [vector_display(components)]: [math.hypot] refuses what is no number. *)
Definition vector_display (components : list pyval) : outcome string :=
  c0 ← py_index components 0;
  c1 ← py_index components 1;
  x ← Diagram.py_number c0;
  y ← Diagram.py_number c1;
  Returned (display_text x y).

(** [from_magnitude_angle] called on JSON values. *)
Definition from_magnitude_angle_values (magnitude angle_deg : pyval) : outcome pyval :=
  a ← Diagram.py_number angle_deg;
  m ← Diagram.py_number magnitude;
  let xy := from_magnitude_angle m a in
  Returned (PList [PNum (fst xy); PNum (snd xy)]).

(** The first step of [add_vectors] and [subtract_vectors]: a mapping with
    both keys is replaced by its components, anything else is kept. *)
Definition to_list (v : pyval) : outcome pyval :=
  match v with
  | PDict d =>
      if py_has_key d "magnitude" && py_has_key d "angle_deg" then
        m ← py_getitem d "magnitude";
        a ← py_getitem d "angle_deg";
        from_magnitude_angle_values m a
      else Returned v
  | _ => Returned v
  end.

Definition shape_error : string :=
  "Error: Each vector must be components [x, y] (in N), or dict with 'magnitude' and 'angle_deg'.".

(** The part the two tools share: [op] is [+] or [-], [title] the first line
    of the answer. *)
Definition combine (op : pyval -> pyval -> outcome pyval) (title : string)
           (vector1 vector2 : pyval) : outcome string :=
  v1 ← to_list vector1;
  v2 ← to_list vector2;
  match v1, v2 with
  | PList [a0; a1], PList [b0; b1] =>
      r0 ← op a0 b0;
      r1 ← op a1 b1;
      text ← vector_display [r0; r1];
      Returned (title +:+ newline +:+ text)
  | _, _ => Returned shape_error
  end.

Definition add_vectors (vector1 vector2 : pyval) : outcome string :=
  combine PyOps.add "Sum of vectors:" vector1 vector2.

Definition subtract_vectors (vector1 vector2 : pyval) : outcome string :=
  combine PyOps.sub "Difference of vectors:" vector1 vector2.

(** A list of two elements, the shape both tools need after the first
    step. *)
Definition is_pair (v : pyval) : bool :=
  match v with
  | PList [_; _] => true
  | _ => false
  end.

(** A mapping that has both keys. *)
Definition is_polar (v : pyval) : bool :=
  match v with
  | PDict d => py_has_key d "magnitude" && py_has_key d "angle_deg"
  | _ => false
  end.

End VectorsTools.

(** The two notations in which the vector tools take a numeric vector. *)
Module VectorInput.
Open Scope R_scope.

Inductive vector_input :=
| Components (x y : R)
| Polar (magnitude angle_deg : R).

(** The JSON value handed to the tool. *)
Definition to_json (w : vector_input) : pyval :=
  match w with
  | Components x y => components x y
  | Polar m a => polar_dict m a
  end.

(** The Cartesian components the notation stands for. *)
Definition cartesian (w : vector_input) : R * R :=
  match w with
  | Components x y => (x, y)
  | Polar m a => Vectors.from_magnitude_angle m a
  end.

Definition is_number (v : pyval) : bool :=
  match v with
  | PNum _ | PBool _ => true
  | _ => false
  end.

End VectorInput.

(** ** Reading a drawing *)

Module SvgView.
Import Svg.

(** An arrow: start, end, stroke colour and marker reference. *)
Record arrow := Arrow {
  arrow_start : point;
  arrow_end : point;
  arrow_stroke : string;
  arrow_marker_end : string
}.

(** A text: content, position and fill colour. *)
Record caption := Caption {
  caption_text : pyval;
  caption_at : point;
  caption_fill : string
}.

Definition arrow_of (e : element) : option arrow :=
  match e with
  | Line start end_ stroke _ marker_end => Some (Arrow start end_ stroke marker_end)
  | _ => None
  end.

Definition caption_of (e : element) : option caption :=
  match e with
  | Text text insert _ fill => Some (Caption text insert fill)
  | _ => None
  end.

(** The arrows of a drawing, in drawing order. *)
Definition arrow_list (dwg : Drawing) : list arrow := omap arrow_of (elements dwg).

(** The texts of a drawing, in drawing order. *)
Definition caption_list (dwg : Drawing) : list caption := omap caption_of (elements dwg).

End SvgView.

(** ** What [draw_free_body] computes for one force *)

Module DiagramView.
Import PyMath Svg Diagram.
Open Scope R_scope.

(** [color_cycle[idx % len(color_cycle)]] *)
Definition stroke_color (idx : nat) : string :=
  default ""%string (color_cycle !! (idx mod List.length color_cycle)%nat).

(** [length]: the length of the arrow on the canvas. *)
Definition arrow_length (vec : R * R) : R :=
  PyMath.max 30 (hypot (fst vec) (snd vec) * 30).

(** [(x2, y2)]: the end of the arrow. *)
Definition arrow_tip (vec : R * R) : point :=
  (fst center + arrow_length vec * cos (atan2 (snd vec) (fst vec)),
   snd center - arrow_length vec * sin (atan2 (snd vec) (fst vec))).

(** [label]: the label of the force, or the generated one. *)
Definition label_of (force : gmap string pyval) (vec : R * R) : pyval :=
  default (PStr (vector_label vec "" "N")) (force !! "label").

(** [(label_x, label_y)]: where the label is written. *)
Definition label_at (vec : R * R) : point :=
  ((fst center + fst (arrow_tip vec)) / 2 + 10,
   (snd center + snd (arrow_tip vec)) / 2 - 10).

(** The two elements one iteration of the loop adds. *)
Definition force_elements (idx : nat) (force : gmap string pyval) (vec : R * R)
  : list element :=
  [Line center (arrow_tip vec) (stroke_color idx) 4 (get_funciri "arrow");
   Text (label_of force vec) (label_at vec) "12px" (stroke_color idx)].

(** The elements the loop adds for the forces from position [idx] on. *)
Fixpoint loop_elements (idx : nat) (drawn : list (gmap string pyval * (R * R)))
  : list element :=
  match drawn with
  | [] => []
  | (force, vec) :: rest => force_elements idx force vec ++ loop_elements (S idx) rest
  end.

(** A force that the loop can draw: it has a "vector" that is normalised
    to [vec]. *)
Definition drawable {lib : PyLib} (force : gmap string pyval) (vec : R * R) : Prop :=
  exists v, force !! "vector" = Some v /\ parse_vector v = Returned vec.

(** Two forces for the examples: {label: "F1", vector: [3, 4]} and a force
    whose vector is the text "push hard". *)
Definition sample_forces : list (gmap string pyval) :=
  [labelled 0 (components 3 4); labelled 1 (PStr "push hard")].

End DiagramView.

(** ** Notions used to state the properties of the vector [net_force] *)

Module NetView.
Import Diagram.
Open Scope R_scope.

(** The value of [(net_x, net_y)] after the loop has added the vectors
    [vecs] to [net]. *)
Definition accumulate (net : R * R) (vecs : list (R * R)) : R * R :=
  fold_left (fun acc v => (fst acc + fst v, snd acc + snd v)) vecs net.


(** The entries [forces] are normalised to the vectors [vecs], none
    raising. *)
Definition normalised {lib : PyLib} (forces : list pyval) (vecs : list (R * R)) : Prop :=
  Forall2 (fun f vec => parse_vector f = Returned vec) forces vecs.

End NetView.

(** ** Notions used to state the properties of [smart_diagram] *)

Module SmartView.

(** A JSON number, boolean or null. *)
Definition is_scalar (f : pyval) : bool :=
  match f with
  | PNone | PBool _ | PNum _ => true
  | _ => false
  end.

End SmartView.

(** ** vectors/vectors.py on binary64 numbers *)

(** A Python [float] is a binary64 number of IEEE 754, and its [+], [*],
    [/] and [<] are those of the kernel's primitive floats, rounding to
    nearest, ties to even.  [math.hypot] and [math.atan2] are the C
    library's: an interface. *)
Module Binary64.
Import PrimFloat.
Open Scope float_scope.

Class Libm := {
  hypot : float -> float -> float;
  atan2 : float -> float -> float
}.

(** [math.pi] *)
Definition pi : float := 0x1.921fb54442d18p+1.

(** [math.degrees(x)]: CPython multiplies by the constant [180.0 / pi]. *)
Definition degrees (x : float) : float := x * (180 / pi).

Record polar := { magnitude : float; angle_deg : float }.

Section WithLibm.
Context {libm : Libm}.

Definition to_magnitude_angle (x y : float) : polar :=
  let magnitude := hypot x y in
  let angle := degrees (atan2 y x) in
  let angle := if angle <? 0 then angle + 360 else angle in
  {| magnitude := magnitude; angle_deg := angle |}.

End WithLibm.

(** The float that the literal [1e-17] denotes. *)
Definition tiny : float := 0x1.70ef54646d497p-57.

(** [a] is the float [x] or one of its two neighbours. *)
Definition within_one_step (a x : float) : Prop :=
  a = next_down x \/ a = x \/ a = next_up x.

(** A C library for the examples.  For a quotient y/x as small as those of
    the examples atan(y/x) and y/x round to the same float. *)
Definition small_angle : Libm :=
  {| hypot x y := sqrt (x * x + y * y); atan2 y x := y / x |}.

End Binary64.

(** ** diagram/diagram.py: [draw_free_body] as a program with state *)

(** What a call of [draw_free_body] could read and write besides its
    arguments: the clock, the generator of the [random] module, the counter
    from which svgwrite generates the ids of elements that have none (the
    class attribute [AutoID._nextid], shared by all drawings of the process)
    and the objects on the heap.  A drawing and a marker are mutable objects
    passed by reference: addresses.  The circle, text, line and polygon
    elements are created in the argument of the [add] that stores them and
    are never touched again: values.  A computation that would follow a
    reference to no object has no result ([None]). *)
Module Process.
Import PyMath Diagram.
Open Scope R_scope.

Record marker_obj := {
  marker_insert : Svg.point;
  marker_size : Svg.point;
  marker_orient : string;
  (** the [id] attribute, when it is set *)
  marker_id : option string;
  marker_children : list Svg.element
}.

Record drawing_obj := {
  drawing_size : Svg.point;
  (** the markers added to [dwg.defs] *)
  drawing_defs : list nat;
  drawing_elements : list Svg.element
}.

Record state := {
  (** the text of [datetime.now().strftime('%Y%m%d_%H%M%S')] *)
  clock : string;
  (** the state of the generator of the [random] module *)
  random : nat;
  (** [AutoID._nextid] *)
  next_id : N;
  markers : list marker_obj;
  drawings : list drawing_obj
}.

Definition set_next_id (s : state) (n : N) : state :=
  {| clock := clock s; random := random s; next_id := n;
     markers := markers s; drawings := drawings s |}.

Definition set_markers (s : state) (ms : list marker_obj) : state :=
  {| clock := clock s; random := random s; next_id := next_id s;
     markers := ms; drawings := drawings s |}.

Definition set_drawings (s : state) (ds : list drawing_obj) : state :=
  {| clock := clock s; random := random s; next_id := next_id s;
     markers := markers s; drawings := ds |}.

(** A computation returns or raises, and leaves a state. *)
Definition run (A : Type) : Type := state -> option (outcome A * state).

#[global] Instance run_ret : MRet run := fun A a s => Some (Returned a, s).
#[global] Instance run_bind : MBind run := fun A B f m s =>
  match m s with
  | Some (Returned a, s') => f a s'
  | Some (Raised e, s') => Some (Raised e, s')
  | None => None
  end.

(** A computation that touches no state. *)
Definition lift {A} (o : outcome A) : run A := fun s => Some (o, s).

(** [svgwrite.Drawing(size=size)]: a new object. *)
Definition Drawing (size : Svg.point) : run nat := fun s =>
  Some (Returned (length (drawings s)),
        set_drawings s (drawings s ++
          [{| drawing_size := size; drawing_defs := []; drawing_elements := [] |}])).

(** [dwg.add(e)] *)
Definition add (dwg : nat) (e : Svg.element) : run unit := fun s =>
  match drawings s !! dwg with
  | Some d =>
      Some (Returned (),
            set_drawings s
              (<[dwg := {| drawing_size := drawing_size d;
                           drawing_defs := drawing_defs d;
                           drawing_elements := drawing_elements d ++ [e] |}]>
                 (drawings s)))
  | None => None
  end.

(** [dwg.marker(insert=.., size=.., orient=.., id=..)]: a new object, not
    yet part of the drawing; [id] is [None] when the keyword is left out. *)
Definition marker (insert size : Svg.point) (orient : string) (id : option string)
  : run nat := fun s =>
  Some (Returned (length (markers s)),
        set_markers s (markers s ++
          [{| marker_insert := insert; marker_size := size; marker_orient := orient;
              marker_id := id; marker_children := [] |}])).

Definition update_marker (m : nat) (f : marker_obj -> marker_obj) : run unit := fun s =>
  match markers s !! m with
  | Some mo => Some (Returned (), set_markers s (<[m := f mo]> (markers s)))
  | None => None
  end.

(** [marker.add(e)] *)
Definition marker_add (m : nat) (e : Svg.element) : run unit :=
  update_marker m (fun mo =>
    {| marker_insert := marker_insert mo; marker_size := marker_size mo;
       marker_orient := marker_orient mo; marker_id := marker_id mo;
       marker_children := marker_children mo ++ [e] |}).

(** [dwg.defs.add(marker)]: the drawing refers to the marker object. *)
Definition defs_add (dwg m : nat) : run unit := fun s =>
  match drawings s !! dwg with
  | Some d =>
      Some (Returned (),
            set_drawings s
              (<[dwg := {| drawing_size := drawing_size d;
                           drawing_defs := drawing_defs d ++ [m];
                           drawing_elements := drawing_elements d |}]>
                 (drawings s)))
  | None => None
  end.

(** [AutoID.next_id()]: the text ["id%d" % _nextid], and the counter moves
    on. *)
Definition auto_id : run string := fun s =>
  Some (Returned ("id" +:+ PyStr.of_N (next_id s)), set_next_id s (next_id s + 1)).

(** [marker.get_id()]: the id of the marker; a marker without id is given a
    generated one first. *)
Definition get_id (m : nat) : run string := fun s =>
  match markers s !! m with
  | Some mo =>
      match marker_id mo with
      | Some id => Some (Returned id, s)
      | None =>
          (id ← auto_id;
           _ ← update_marker m (fun mo =>
                 {| marker_insert := marker_insert mo; marker_size := marker_size mo;
                    marker_orient := marker_orient mo; marker_id := Some id;
                    marker_children := marker_children mo |});
           mret id) s
      end
  | None => None
  end.

(** [marker.get_funciri()] *)
Definition get_funciri (m : nat) : run string :=
  id ← get_id m; mret (Svg.get_funciri id).

(** The element a marker object stands for.  [Svg.Marker] carries an id: a
    marker whose id was never set has no counterpart. *)
Definition marker_element (mo : marker_obj) : option Svg.element :=
  id ← marker_id mo;
  Some (Svg.Marker (marker_insert mo) (marker_size mo) (marker_orient mo) id
          (marker_children mo)).

(** The drawing that the object at [dwg] and the markers it refers to make
    up at this moment. *)
Definition snapshot (s : state) (dwg : nat) : option Svg.Drawing :=
  d ← drawings s !! dwg;
  defs ← mapM (fun m => markers s !! m ≫= marker_element) (drawing_defs d);
  Some {| Svg.size := drawing_size d; Svg.defs := defs;
          Svg.elements := drawing_elements d |}.

Section WithLib.
Context {lib : PyLib}.

(** [dwg.tostring()] *)
Definition tostring (dwg : nat) : run string := fun s =>
  match snapshot s dwg with
  | Some d => Some (Returned (tostring d), s)
  | None => None
  end.

(** One iteration of the loop of [draw_free_body]. *)
Definition draw_force (dwg arrow_marker : nat) (idx : nat) (force : gmap string pyval)
  : run unit :=
  v ← lift (py_getitem force "vector");
  vec ← lift (parse_vector v);
  let mag := hypot (fst vec) (snd vec) in
  let angle := atan2 (snd vec) (fst vec) in
  let length := PyMath.max 30 (mag * 30) in
  let x2 := fst center + length * cos angle in
  let y2 := snd center - length * sin angle in
  let color := default ""%string
                 (color_cycle !! (idx mod List.length color_cycle)%nat) in
  marker_end ← get_funciri arrow_marker;
  _ ← add dwg (Svg.Line center (x2, y2) color 4 marker_end);
  let label := default (PStr (vector_label vec "" "N")) (force !! "label") in
  let label_x := (fst center + x2) / 2 + 10 in
  let label_y := (snd center + y2) / 2 - 10 in
  add dwg (Svg.Text label (label_x, label_y) "12px" color).

Fixpoint draw_forces (dwg arrow_marker : nat) (idx : nat)
  (forces : list (gmap string pyval)) : run unit :=
  match forces with
  | [] => mret ()
  | force :: rest =>
      _ ← draw_force dwg arrow_marker idx force;
      draw_forces dwg arrow_marker (S idx) rest
  end.

Definition draw_free_body (forces : list (gmap string pyval)) (object_name : string)
  : run string :=
  dwg ← Drawing (400, 400);
  _ ← add dwg (Svg.Circle center 20 "lightgrey" "black" 2);
  _ ← add dwg (Svg.Text (PStr object_name) (fst center - 22, snd center + 45)
                 "16px" "black");
  arrow_marker ← marker (10, 5) (10, 10) "auto" (Some "arrow"%string);
  _ ← marker_add arrow_marker (Svg.Polygon [(0, 0); (10, 5); (0, 10)] "black");
  _ ← defs_add dwg arrow_marker;
  _ ← draw_forces dwg arrow_marker 0 forces;
  tostring dwg.

End WithLib.

(** talk_to_diagram.py, [maybe_save_svg]: the name of the file under which
    the client saves the markup it was sent. *)
Definition saved_filename (s : state) : string :=
  "diagram_" +:+ clock s +:+ ".svg".

(** *** Notions used to state the properties of the stateful renderer *)

(** [s'] is [s] except for the marker at [m] and the drawing at [dwg]. *)
Definition differ_at (m dwg : nat) (s s' : state) : Prop :=
  clock s' = clock s /\ random s' = random s /\ next_id s' = next_id s /\
  (forall a, a <> m -> markers s' !! a = markers s !! a) /\
  (forall a, a <> dwg -> drawings s' !! a = drawings s !! a).

(** The clock, the random generator, the id counter and every object of [s]
    are in [s'] as they are in [s]. *)
Definition untouched (s s' : state) : Prop :=
  clock s' = clock s /\ random s' = random s /\ next_id s' = next_id s /\
  (forall a o, markers s !! a = Some o -> markers s' !! a = Some o) /\
  (forall a o, drawings s !! a = Some o -> drawings s' !! a = Some o).

(** A state for the examples: one marker without id, created by
    [dwg.marker(insert=(10, 5), size=(10, 10), orient="auto")], and the
    id counter at [n]. *)
Definition unnamed_marker (n : N) : state :=
  {| clock := "20250101_120000"; random := 0; next_id := n;
     markers := [{| marker_insert := (10, 5); marker_size := (10, 10);
                    marker_orient := "auto"; marker_id := None;
                    marker_children := [] |}];
     drawings := [] |}.

End Process.

(** * Properties *)

(** ** Facts about the [math] functions and the formatting *)

Module PyFacts.
Import PyMath PyFormat.
Open Scope R_scope.

Lemma degrees_scale : 0 < 180 / PI /\ PI * (180 / PI) = 180.
Proof.
  pose proof PI_RGT_0 as Hpi. split.
  - apply Rdiv_lt_0_compat; lra.
  - field. lra.
Qed.

Lemma atan2_range (y x : R) : - PI < atan2 y x <= PI.
Proof.
  pose proof PI_RGT_0 as Hpi.
  pose proof (atan_bound (y / x)) as Hb.
  unfold atan2.
  destruct (Rlt_dec 0 x) as [Hx | Hx]; [lra |].
  destruct (Rlt_dec x 0) as [Hx' | Hx'].
  - destruct (Rle_dec 0 y) as [Hy | Hy].
    + assert (y / x <= 0) as Hq.
      { unfold Rdiv. assert (/ x < 0) by (apply Rinv_lt_0_compat; lra). nra. }
      assert (atan (y / x) <= 0) as Ha.
      { destruct Hq as [Hq | Hq].
        - apply atan_increasing in Hq. rewrite atan_0 in Hq. lra.
        - rewrite Hq, atan_0. lra. }
      lra.
    + assert (0 < y / x) as Hq.
      { unfold Rdiv. assert (/ x < 0) by (apply Rinv_lt_0_compat; lra). nra. }
      apply atan_increasing in Hq. rewrite atan_0 in Hq. lra.
  - destruct (Rlt_dec 0 y); [lra |].
    destruct (Rlt_dec y 0); lra.
Qed.

Lemma degrees_atan2_range (y x : R) : - 180 < degrees (atan2 y x) <= 180.
Proof.
  destruct (atan2_range y x) as [Hlo Hhi].
  destruct degrees_scale as [Hk Hpk].
  unfold degrees. set (k := 180 / PI) in *. nra.
Qed.

Lemma hypot_nonneg (x y : R) : 0 <= hypot x y.
Proof. apply sqrt_pos. Qed.

(** In the first quadrant [atan2] is the arctangent of the slope. *)
Lemma atan2_pos_x (y x : R) : 0 < x -> atan2 y x = atan (y / x).
Proof. intros Hx. unfold atan2. destruct (Rlt_dec 0 x); [reflexivity | lra]. Qed.

Lemma fmod_plus_period (a m : R) : 0 < m -> 0 <= a < m -> fmod (a + m) m = a.
Proof.
  intros Hm Ha. unfold fmod.
  assert (Zfloor ((a + m) / m) = 1%Z) as ->.
  { apply Zfloor_eq.
    replace ((a + m) / m) with (a / m + 1) by (field; lra).
    assert (0 <= a / m).
    { apply Rmult_le_pos; [lra | left; apply Rinv_0_lt_compat; lra]. }
    assert (a / m < 1).
    { apply (Rmult_lt_reg_r m); [lra |].
      replace (a / m * m) with a by (field; lra). lra. }
    simpl. lra. }
  simpl. lra.
Qed.

Lemma round_half_even_near (x : R) (n : Z) :
  IZR n - 1 / 2 < x < IZR n + 1 / 2 -> round_half_even x = n.
Proof.
  intros [Hlo Hhi]. unfold round_half_even.
  destruct (Rlt_dec x (IZR n)) as [Hx | Hx].
  - assert (Zfloor x = (n - 1)%Z) as ->.
    { apply Zfloor_eq. rewrite minus_IZR. lra. }
    rewrite minus_IZR.
    destruct (Rlt_dec (x - (IZR n - 1)) (1 / 2)); [lra |].
    destruct (Rlt_dec (1 / 2) (x - (IZR n - 1))); [lia | lra].
  - assert (Zfloor x = n) as -> by (apply Zfloor_eq; lra).
    destruct (Rlt_dec (x - IZR n) (1 / 2)); [reflexivity | lra].
Qed.

(** Formatting a non-negative number whose scaled value rounds to [n]. *)
Lemma fixed_near (digits : nat) (x : R) (n : Z) :
  0 <= x ->
  IZR n - 1 / 2 < x * 10 ^ digits < IZR n + 1 / 2 ->
  fixed digits x = fixed_digits digits n.
Proof.
  intros Hx Hn. unfold fixed.
  destruct (Rlt_dec x 0); [lra |].
  rewrite Rabs_pos_eq by assumption.
  rewrite (round_half_even_near _ n Hn). reflexivity.
Qed.

(** *** Numeric windows *)

Lemma PI_window : 3.1415 < PI < 3.1421.
Proof.
  pose proof (PI_2_3_7_ineq 1) as [Hlo Hhi].
  unfold sum_f_R0, tg_alt, PI_2_3_7_tg, Ratan_seq in Hlo, Hhi.
  simpl in Hlo, Hhi. lra.
Qed.

(** Comparing [atan x] with a small angle [q] through the first terms of
    the sine and cosine series at [q]. *)
Lemma atan_small_window (q x : R) :
  0 < q < 1 -> 0 <= x ->
  (x * (1 - q * q / 2 + q * q * q * q / 24) < q - q * q * q / 6 -> atan x < q) /\
  (q - q * q * q / 6 + q * q * q * q * q / 120 < x * (1 - q * q / 2) -> q < atan x).
Proof.
  intros Hq Hx0.
  pose proof PI2_1 as Hpi2.
  assert (0 <= q) as Hq0 by lra. assert (q <= 4) as Hq4 by lra.
  pose proof (pre_sin_bound q 0 Hq0 Hq4) as [Hsl Hsu].
  assert (-2 <= q) as Hqm by lra. assert (q <= 2) as Hq2 by lra.
  pose proof (pre_cos_bound q 0 Hqm Hq2) as [Hcl Hcu].
  unfold sin_approx, cos_approx, sum_f_R0, sin_term, cos_term in *.
  simpl in *.
  assert (0 < cos q) as Hc by (apply cos_gt_0; lra).
  assert (atan (tan q) = q) as Hat by (apply atan_tan; lra).
  split; intros Hx.
  - rewrite <- Hat. apply atan_increasing. unfold tan.
    apply (Rmult_lt_reg_r (cos q)); [assumption |].
    replace (sin q / cos q * cos q) with (sin q) by (field; lra).
    apply Rle_lt_trans with (x * (1 - q * q / 2 + q * q * q * q / 24)); [| lra].
    apply Rmult_le_compat_l; lra.
  - rewrite <- Hat at 1. apply atan_increasing. unfold tan.
    apply (Rmult_lt_reg_r (cos q)); [assumption |].
    replace (sin q / cos q * cos q) with (sin q) by (field; lra).
    apply Rlt_le_trans with (x * (1 - q * q / 2)); [lra |].
    apply Rmult_le_compat_l; lra.
Qed.

Lemma atan_7_window : 0.14175 < atan (/ 7) < 0.14205.
Proof.
  split.
  - apply (atan_small_window 0.14175 (/ 7)); lra.
  - apply (atan_small_window 0.14205 (/ 7)); lra.
Qed.

(** Machin's formula PI/4 = 2 atan(1/3) + atan(1/7), read for atan 3. *)
Lemma atan_3_machin : atan 3 = 3 * PI / 8 + atan (/ 7) / 2.
Proof.
  pose proof (atan_inv 3 ltac:(lra)) as Hinv.
  pose proof Machin_2_3_7 as Hm. lra.
Qed.

(** The direction of the vector (3, 9), in degrees. *)
Lemma direction_3_9 : 71.56 < degrees (atan2 9 3) < 71.57.
Proof.
  rewrite atan2_pos_x by lra.
  replace (9 / 3) with 3 by lra.
  rewrite atan_3_machin.
  destruct atan_7_window as [Hlo Hhi].
  destruct PI_window as [Plo Phi].
  destruct degrees_scale as [Hk Hpk].
  unfold degrees. set (k := 180 / PI) in *. set (a := atan (/ 7)) in *.
  assert (57.28 < k < 57.30) as [Hk1 Hk2] by (split; nra).
  replace ((3 * PI / 8 + a / 2) * k) with (3 * (PI * k) / 8 + a * k / 2) by field.
  rewrite Hpk. split; nra.
Qed.

Lemma sqrt_window (lo hi x : R) :
  0 <= lo -> 0 <= hi -> lo * lo < x < hi * hi -> lo < sqrt x < hi.
Proof.
  intros Hlo Hhi [H1 H2]. split.
  - rewrite <- (sqrt_square lo) by assumption. apply sqrt_lt_1_alt. split; [nra | lra].
  - rewrite <- (sqrt_square hi) by assumption. apply sqrt_lt_1_alt. split; [nra | lra].
Qed.

Lemma hypot_3_9 : hypot 3 9 = sqrt 90.
Proof. unfold hypot. f_equal. lra. Qed.

Lemma sqrt_90_window : 9.486 < sqrt 90 < 9.487.
Proof. apply sqrt_window; lra. Qed.

Lemma sqrt_3_window : 1.73205 < sqrt 3 < 1.73206.
Proof. apply sqrt_window; lra. Qed.

Lemma cos_30_degrees : cos (radians 30) = sqrt 3 / 2.
Proof.
  unfold radians. replace (30 * (PI / 180)) with (PI / 6) by field.
  apply cos_PI6.
Qed.

End PyFacts.

(** ** vectors/vectors.py *)

Module VectorsProps.
Import PyMath PyFacts Vectors.
Open Scope R_scope.

(** Were the arithmetic exact, [to_magnitude_angle x y] would have the
    Euclidean norm sqrt(x^2 + y^2) as magnitude, which is non-negative, and
    an angle in degrees in the half-open interval [0, 360): this is what
    the comparison with 0 and the addition of 360 are there for.  The
    binary64 code rounds that addition, and the bound is lost: see
    [Binary64Props]. *)
Lemma to_magnitude_angle_exact_arithmetic (x y : R) :
  magnitude (to_magnitude_angle x y) = sqrt (x ^ 2 + y ^ 2) /\
  0 <= magnitude (to_magnitude_angle x y) /\
  0 <= angle_deg (to_magnitude_angle x y) < 360.
Proof.
  unfold to_magnitude_angle. simpl magnitude. simpl angle_deg.
  split; [| split].
  - unfold hypot. f_equal. ring.
  - apply hypot_nonneg.
  - pose proof (degrees_atan2_range y x) as [Hlo Hhi].
    destruct (Rlt_dec (degrees (atan2 y x)) 0); lra.
Qed.

Example to_magnitude_angle_3_4 : magnitude (to_magnitude_angle 3 4) = 5.
Proof.
  unfold to_magnitude_angle, hypot. cbn [magnitude].
  replace (3 * 3 + 4 * 4) with (5 * 5) by lra. apply sqrt_square. lra.
Qed.

(** Straight down is reported as 270 degrees, not -90. *)
Example to_magnitude_angle_down : angle_deg (to_magnitude_angle 0 (-1)) = 270.
Proof.
  unfold to_magnitude_angle, atan2, degrees. cbn [angle_deg].
  pose proof PI_RGT_0 as Hpi.
  destruct (Rlt_dec 0 0); [lra |]. destruct (Rlt_dec 0 0); [lra |].
  destruct (Rlt_dec 0 (-1)); [lra |]. destruct (Rlt_dec (-1) 0); [| lra].
  replace (- (PI / 2) * (180 / PI)) with (-90) by (field; lra).
  destruct (Rlt_dec (-90) 0); lra.
Qed.

(** The text of the [to_polar] tool rounds the angle to two decimals: a
    direction less than 0.005 degrees below the +x axis is printed as
    360.00. *)
Example to_polar_prints_360 :
  to_polar 1 (-0.00001) =
  "Magnitude: 1.00 N" +:+ newline +:+ "Direction: 360.00° CCW from +x axis".
Proof.
  assert (magnitude (to_magnitude_angle 1 (-0.00001)) = sqrt (1 ^ 2 + (-0.00001) ^ 2)) as Hm.
  { unfold to_magnitude_angle, hypot. cbn [magnitude]. f_equal. ring. }
  assert (0 <= angle_deg (to_magnitude_angle 1 (-0.00001)) < 360) as Ha.
  { unfold to_magnitude_angle. cbn [angle_deg].
    pose proof (degrees_atan2_range (-0.00001) 1) as [Hlo Hhi].
    destruct (Rlt_dec (degrees (atan2 (-0.00001) 1)) 0); lra. }
  assert (359.995 < angle_deg (to_magnitude_angle 1 (-0.00001))) as Hlow.
  { unfold to_magnitude_angle. cbn [angle_deg].
    rewrite atan2_pos_x by lra.
    replace (-0.00001 / 1) with (- (1 / 100000)) by lra. rewrite atan_opp.
    assert (atan (1 / 100000) < 0.00008) as Hat.
    { apply (atan_small_window 0.00008 (1 / 100000)); lra. }
    destruct degrees_scale as [Hk Hpk]. destruct PI_window as [Plo Phi].
    unfold degrees. set (k := 180 / PI) in *.
    assert (k < 58) by nra.
    assert (0 < atan (1 / 100000)).
    { rewrite <- atan_0. apply atan_increasing. lra. }
    destruct (Rlt_dec (- atan (1 / 100000) * k) 0); nra. }
  assert (1 <= magnitude (to_magnitude_angle 1 (-0.00001)) < 1.001) as Hmag.
  { rewrite Hm. split.
    - rewrite <- sqrt_1 at 1. apply sqrt_le_1_alt. lra.
    - apply (sqrt_window 0 1.001); lra. }
  unfold to_polar.
  set (m := magnitude (to_magnitude_angle 1 (-0.00001))) in *.
  set (a := angle_deg (to_magnitude_angle 1 (-0.00001))) in *.
  rewrite (fixed_near 2 m 100) by (simpl; lra).
  rewrite (fixed_near 2 a 36000) by (simpl; lra).
  reflexivity.
Qed.

End VectorsProps.

(** ** vectors/vectors.py on binary64 numbers *)

Module Binary64Props.
Import PrimFloat Binary64.
Open Scope float_scope.

(** In degrees the tiny negative angle is about -5.7e-16, and adding 360
    to it rounds to 360: half the distance from 360 to the float below it
    is about 2.8e-14. *)
Example tiny_angle_rounds_up :
  (degrees (- tiny) <? 0) = true /\ degrees (- tiny) + 360 = 360.
Proof. split; vm_compute; reflexivity. Qed.

(** C6.  The bound of the claim, an angle in [0, 360), fails on the
    binary64 code.  For x = 1.0 and y = -1e-17 the angle of [math.atan2] is
    negative, so [to_magnitude_angle] adds 360 to its value in degrees, and
    the sum is the float 360.0: the reported angle is 360, and Python's
    own comparison denies that it is below 360.  This is so for every C
    library whose [atan2] returns, at this input, the float nearest to the
    exact angle, which is -1e-17, or a neighbour of it. *)
Theorem to_magnitude_angle_reaches_360 {libm : Libm} :
  within_one_step (atan2 (- tiny) 1) (- tiny) ->
  angle_deg (to_magnitude_angle 1 (- tiny)) = 360 /\
  (angle_deg (to_magnitude_angle 1 (- tiny)) <? 360) = false.
Proof.
  intros Ha. unfold to_magnitude_angle. cbn [angle_deg].
  destruct Ha as [-> | [-> | ->]]; vm_compute; split; reflexivity.
Qed.

Lemma to_magnitude_angle_reaches_360_witness :
  within_one_step (atan2 (Libm := small_angle) (- tiny) 1) (- tiny) /\
  angle_deg (to_magnitude_angle (libm := small_angle) 1 (- tiny)) = 360.
Proof.
  assert (within_one_step (atan2 (Libm := small_angle) (- tiny) 1) (- tiny)) as Ha.
  { right. left. vm_compute. reflexivity. }
  split; [exact Ha |].
  apply (proj1 (to_magnitude_angle_reaches_360 (libm := small_angle) Ha)).
Defined.

End Binary64Props.

(** ** forces/forces.py *)

Module ForcesProps.
Import PyMath PyFacts Forces.
Open Scope R_scope.

(** C7. [normal_force m g theta_deg] is m*g on a flat surface
    (theta_deg = 0) and m*g*cos(theta), theta in radians, on an incline;
    [normal_force 5 9.8 30] is 5*9.8*cos(30 degrees), which is 42.44 to two
    decimals. *)
Theorem normal_force_flat_and_incline (m g theta_deg : R) :
  (theta_deg = 0 -> normal_force m g theta_deg = m * g) /\
  (theta_deg <> 0 ->
   normal_force m g theta_deg = m * g * cos (theta_deg * (PI / 180))) /\
  normal_force 5 9.8 30 = 5 * 9.8 * cos (30 * (PI / 180)) /\
  42.435 < normal_force 5 9.8 30 < 42.445.
Proof.
  unfold normal_force.
  split; [| split; [| split]].
  - intros ->. destruct (Req_dec_T 0 0); [lra | contradiction].
  - intros Hne. destruct (Req_dec_T theta_deg 0); [contradiction | reflexivity].
  - destruct (Req_dec_T 30 0); [lra | reflexivity].
  - destruct (Req_dec_T 30 0); [lra |].
    rewrite cos_30_degrees. pose proof sqrt_3_window. lra.
Qed.

Lemma normal_force_flat_and_incline_witness :
  normal_force 5 9.8 0 = 5 * 9.8 /\
  normal_force 5 9.8 30 = 5 * 9.8 * cos (30 * (PI / 180)).
Proof.
  split.
  - apply (proj1 (normal_force_flat_and_incline 5 9.8 0)). reflexivity.
  - apply (proj1 (proj2 (normal_force_flat_and_incline 5 9.8 30))). lra.
Defined.

(** C8. When both a weight and a mass are supplied, [tension] returns the
    weight; when only a mass is supplied it returns mass times gravity
    (9.8 by default). *)
Theorem tension_weight_precedence (w m g : R) :
  tension (Some w) (Some m) g = w /\
  tension None (Some m) g = m * g /\
  tension None (Some m) GRAVITY = m * 9.8.
Proof.
  unfold tension, GRAVITY. repeat split; lra.
Qed.

(** C10. With neither a weight nor a mass, [tension] returns 0.0. *)
Theorem tension_nothing_supplied (g : R) : tension None None g = 0.
Proof. reflexivity. Qed.

End ForcesProps.

(** ** diagram/diagram.py *)

Module DiagramProps.
Import PyMath PyFacts Svg Diagram.
Open Scope R_scope.

Section WithLib.
Context {lib : PyLib}.

Lemma parse_vector_components (x y : R) :
  parse_vector (components x y) = Returned (x, y).
Proof. reflexivity. Qed.

Lemma parse_vector_polar_dict (m a : R) :
  parse_vector (polar_dict m a) =
  Returned (m * cos (radians a), m * sin (radians a)).
Proof. reflexivity. Qed.

Lemma example_report :
  net_force_report example_forces =
  Returned {| net_x := 0 + 3 + 0; net_y := 0 + 4 + 5;
              mag := hypot (0 + 3 + 0) (0 + 4 + 5);
              angle := fmod (degrees (atan2 (0 + 4 + 5) (0 + 3 + 0)) + 360) 360 |}.
Proof. reflexivity. Qed.

Lemma example_angle :
  71.56 < fmod (degrees (atan2 (0 + 4 + 5) (0 + 3 + 0)) + 360) 360 < 71.57.
Proof.
  replace (0 + 4 + 5) with 9 by lra. replace (0 + 3 + 0) with 3 by lra.
  pose proof direction_3_9 as Hd.
  rewrite fmod_plus_period by lra. exact Hd.
Qed.

Lemma example_mag : hypot (0 + 3 + 0) (0 + 4 + 5) = sqrt 90.
Proof.
  replace (0 + 4 + 5) with 9 by lra. replace (0 + 3 + 0) with 3 by lra.
  apply hypot_3_9.
Qed.

Lemma example_text (r : net_report) :
  net_x r = 3 -> net_y r = 9 ->
  9.486 < mag r < 9.487 -> 71.56 < angle r < 71.57 ->
  net_force_text r =
  "Net force: 9.49 N at 71.6° (from +x axis, CCW)" +:+ newline +:+
  "Components: (3.00 N, 9.00 N)".
Proof.
  intros Hx Hy Hm Ha. unfold net_force_text.
  rewrite (fixed_near 2 (mag r) 949) by (simpl; lra).
  rewrite (fixed_near 1 (angle r) 716) by (simpl; lra).
  rewrite (fixed_near 2 (net_x r) 300) by (rewrite Hx; simpl; lra).
  rewrite (fixed_near 2 (net_y r) 900) by (rewrite Hy; simpl; lra).
  reflexivity.
Qed.

(** C1, as the code has it. For the input [[3,4],[0,5]] the net force has
    the componentwise sum (3, 9), magnitude sqrt 90 (9.487 to three
    decimals) and direction between 71.56 and 71.57 degrees
    counter-clockwise from the +x axis; the tool reports 9.49 N at 71.6
    degrees with components (3.00 N, 9.00 N). *)
Theorem net_force_example :
  exists r,
    net_force_report example_forces = Returned r /\
    net_x r = 3 /\ net_y r = 9 /\
    mag r = sqrt 90 /\ 9.486 < mag r < 9.487 /\
    71.56 < angle r < 71.57 /\
    net_force example_forces =
    Returned ("Net force: 9.49 N at 71.6° (from +x axis, CCW)" +:+ newline +:+
              "Components: (3.00 N, 9.00 N)").
Proof.
  eexists. split; [apply example_report |].
  cbn [net_x net_y mag angle].
  pose proof example_angle as Ha. pose proof example_mag as Hm.
  pose proof sqrt_90_window as Hw.
  repeat split; try lra.
  unfold net_force. rewrite example_report.
  change (net_force_text <$> Returned ?r) with (Returned (net_force_text r)).
  f_equal. apply example_text; cbn [net_x net_y mag angle]; lra.
Qed.

(** *** [parse_vector] on text *)

Lemma parse_vector_without_at (s : string) :
  PyStr.contains "at" s = false -> parse_vector (PStr s) = Returned (0, 0).
Proof. intros Hs. unfold parse_vector. rewrite Hs. reflexivity. Qed.

Lemma parse_vector_text (s : string) :
  parse_vector (PStr s) =
  if PyStr.contains "at" s
  then match parse_text s with
       | Returned xy => Returned xy
       | Raised _ => Returned (0, 0)
       end
  else Returned (0, 0).
Proof.
  unfold parse_vector, try_except.
  destruct (PyStr.contains "at" s); [| reflexivity].
  destruct (parse_text s); reflexivity.
Qed.

(** C2, as the code has it. A text that contains the lower-case "at",
    whose first word after the first "=" reads as the float [m] and whose
    first word after the first "at" reads as the float [a], is normalised to
    (m cos a, m sin a), a in degrees, exactly as the mapping
    {magnitude: m, angle_deg: a}; a text without "at", a bare scalar
    included, is normalised to (0, 0). *)
Theorem parse_vector_free_text :
  (forall (s after_eq mag_tok after_at angle_tok : string) (m a : R),
      PyStr.contains "at" s = true ->
      PyStr.split "=" s !! 1%nat = Some after_eq ->
      PyStr.split_ws after_eq !! 0%nat = Some mag_tok ->
      float_of_str mag_tok = Some m ->
      PyStr.split "at" s !! 1%nat = Some after_at ->
      PyStr.split_ws after_at !! 0%nat = Some angle_tok ->
      float_of_str angle_tok = Some a ->
      parse_vector (PStr s) =
        Returned (m * cos (radians a), m * sin (radians a)) /\
      parse_vector (PStr s) = parse_vector (polar_dict m a)) /\
  (forall s : string,
      PyStr.contains "at" s = false -> parse_vector (PStr s) = Returned (0, 0)).
Proof.
  split; [| exact parse_vector_without_at].
  intros s after_eq mag_tok after_at angle_tok m a Hat He Hm Hmf Ha Hang Haf.
  rewrite parse_vector_polar_dict.
  assert (parse_text s = Returned (m * cos (radians a), m * sin (radians a))) as Ht.
  { unfold parse_text, py_index. rewrite He. cbn [mbind outcome_bind].
    rewrite Hm. cbn [mbind outcome_bind py_float]. rewrite Hmf.
    rewrite Ha. cbn [mbind outcome_bind]. rewrite Hang.
    cbn [mbind outcome_bind py_float]. rewrite Haf. reflexivity. }
  rewrite parse_vector_text, Hat, Ht. split; reflexivity.
Qed.

(** *** Unrecognised shapes *)

(** C5, as the code has it. An input that is no mapping with both keys,
    no list of two elements and no text on which parsing succeeds is
    normalised to the zero vector without raising; the outcome carries
    nothing else and is the outcome of the genuine zero vector [0, 0]. *)
Theorem parse_vector_unrecognised (vec : pyval) :
  recognised vec = false ->
  parse_vector vec = Returned (0, 0) /\
  parse_vector vec = parse_vector (components 0 0).
Proof.
  intros Hrec. rewrite parse_vector_components.
  assert (parse_vector vec = Returned (0, 0)) as Hz; [| split; exact Hz].
  destruct vec as [| b | r | s | l | d]; try reflexivity.
  - rewrite parse_vector_text. cbn [recognised] in Hrec.
    destruct (PyStr.contains "at" s); [| reflexivity].
    destruct (parse_text s); [discriminate | reflexivity].
  - cbn [recognised] in Hrec.
    destruct l as [| v0 [| v1 [| v2 l]]]; try reflexivity.
    rewrite bool_decide_eq_false in Hrec. contradiction Hrec. reflexivity.
  - cbn [recognised] in Hrec. unfold parse_vector. rewrite Hrec. reflexivity.
Qed.

(** *** The renderer *)

(** The colour index is always within the palette. *)
Lemma color_defined (idx : nat) :
  is_Some (color_cycle !! (idx mod length color_cycle)%nat).
Proof.
  apply lookup_lt_is_Some. apply Nat.mod_upper_bound. discriminate.
Qed.

Lemma arrows_add (dwg : Drawing) (e : element) :
  arrows (add dwg e) = (arrows dwg + if is_line e then 1 else 0)%nat.
Proof.
  unfold arrows, add. cbn [elements].
  rewrite filter_app, length_app. f_equal.
  destruct e; reflexivity.
Qed.

Lemma arrows_init (object_name : string) : arrows (init_drawing object_name) = 0%nat.
Proof. reflexivity. Qed.

Lemma draw_force_arrows (dwg dwg' : Drawing) (idx : nat) (force : gmap string pyval) :
  draw_force dwg idx force = Returned dwg' -> arrows dwg' = S (arrows dwg).
Proof.
  unfold draw_force. intros Hd.
  destruct (py_getitem force "vector") as [v | e]; [| discriminate].
  cbn [mbind outcome_bind] in Hd.
  destruct (parse_vector v) as [vec | e]; [| discriminate].
  cbn [mbind outcome_bind] in Hd. injection Hd as <-.
  rewrite !arrows_add. cbn [is_line]. lia.
Qed.

(** Every force that is drawn adds exactly one arrow. *)
Lemma draw_forces_arrows (forces : list (gmap string pyval)) :
  forall (dwg dwg' : Drawing) (idx : nat),
    draw_forces dwg idx forces = Returned dwg' ->
    arrows dwg' = (arrows dwg + length forces)%nat.
Proof.
  induction forces as [| force rest IH]; intros dwg dwg' idx Hd.
  - injection Hd as <-. cbn [length]. lia.
  - cbn [draw_forces] in Hd.
    destruct (draw_force dwg idx force) as [dwg1 | e] eqn:H1; [| discriminate].
    cbn [mbind outcome_bind] in Hd.
    apply IH in Hd. apply draw_force_arrows in H1. cbn [length]. lia.
Qed.

Lemma free_body_drawing_arrows (forces : list (gmap string pyval))
      (object_name : string) (dwg : Drawing) :
  free_body_drawing forces object_name = Returned dwg ->
  arrows dwg = length forces.
Proof.
  intros Hd. apply draw_forces_arrows in Hd. rewrite arrows_init in Hd. exact Hd.
Qed.

Lemma force_entry_length (idx : nat) (f : pyval) :
  (length (force_entry idx f) <= 1)%nat.
Proof.
  destruct f as [| b | r | s | l | d]; cbn [force_entry length]; try lia.
  - destruct (sympify_float s); cbn [length]; lia.
  - destruct l as [| v0 [| v1 [| v2 l]]]; cbn [length]; lia.
  - destruct (py_has_key d "label" && py_has_key d "vector"); [cbn [length]; lia |].
    destruct (py_has_key d "magnitude" && py_has_key d "angle_deg"); cbn [length]; lia.
Qed.

Lemma force_dicts_from_length (forces : list pyval) :
  forall idx, (length (force_dicts_from idx forces) <= length forces)%nat.
Proof.
  induction forces as [| f rest IH]; intros idx; cbn [force_dicts_from length].
  - lia.
  - rewrite length_app. pose proof (force_entry_length idx f). specialize (IH (S idx)). lia.
Qed.

Lemma force_dicts_from_app (before after : list pyval) :
  forall idx,
    force_dicts_from idx (before ++ after) =
    force_dicts_from idx before ++ force_dicts_from (idx + length before) after.
Proof.
  induction before as [| f rest IH]; intros idx; cbn [force_dicts_from app length].
  - rewrite Nat.add_0_r. reflexivity.
  - rewrite IH, <- app_assoc. do 3 f_equal. lia.
Qed.

(** C9. In [smart_diagram], a text entry on which the numeric parse fails
    adds nothing to the forces that are drawn: no arrow, no zero-vector
    placeholder, and the markup returned is that of the other entries
    alone; the diagram then has fewer arrows than forces were supplied. *)
Theorem smart_diagram_omits_failed_text
        (before after : list pyval) (s : string) (object_name : string) :
  sympify_float s = None ->
  force_entry (length before) (PStr s) = [] /\
  force_dicts (before ++ PStr s :: after) =
    force_dicts before ++ force_dicts_from (S (length before)) after /\
  smart_diagram (before ++ PStr s :: after) object_name =
    draw_free_body
      (force_dicts before ++ force_dicts_from (S (length before)) after)
      object_name /\
  (forall dwg,
      smart_drawing (before ++ PStr s :: after) object_name = Returned dwg ->
      arrows dwg = length (force_dicts (before ++ PStr s :: after)) /\
      (arrows dwg < length (before ++ PStr s :: after))%nat).
Proof.
  intros Hs.
  assert (force_entry (length before) (PStr s) = []) as He.
  { cbn [force_entry]. rewrite Hs. reflexivity. }
  assert (force_dicts (before ++ PStr s :: after) =
          force_dicts before ++ force_dicts_from (S (length before)) after) as Hf.
  { unfold force_dicts. rewrite force_dicts_from_app.
    cbn [force_dicts_from Nat.add]. rewrite He. reflexivity. }
  split; [exact He |]. split; [exact Hf |]. split.
  - unfold smart_diagram. rewrite Hf. reflexivity.
  - intros dwg Hd. unfold smart_drawing in Hd.
    apply free_body_drawing_arrows in Hd. split; [exact Hd |].
    rewrite Hd, Hf, !length_app. cbn [length].
    pose proof (force_dicts_from_length before 0).
    pose proof (force_dicts_from_length after (S (length before))).
    unfold force_dicts. lia.
Qed.

End WithLib.

(** C1, as the specification states it: a direction of 57.99 degrees.
    No result of the call has the components (3, 9) and a direction
    within a hundredth of a degree of 57.99. *)
Lemma net_force_example_not_57_99 :
  ~ exists r,
      net_force_report (lib := Reference.lib) example_forces = Returned r /\
      net_x r = 3 /\ net_y r = 9 /\
      Rabs (mag r - 9.486) <= 0.001 /\
      Rabs (angle r - 57.99) <= 0.01.
Proof.
  intros (r & Hr & _ & _ & _ & Ha).
  rewrite example_report in Hr. injection Hr as <-.
  cbn [angle] in Ha.
  pose proof example_angle as Hw.
  unfold Rabs in Ha. destruct (Rcase_abs _) in Ha; lra.
Qed.

(** Evaluates the integers read by the reference parser. *)
Ltac literal :=
  simpl;
  repeat match goal with
    | |- context [IZR ?z] =>
        progress (let z' := eval vm_compute in z in change (IZR z) with (IZR z'))
    end;
  lra.

Lemma parse_vector_free_text_witness :
  exists m a : R,
    m = 3 /\ a = 30 /\
    parse_vector (lib := Reference.lib) (PStr "F=3 N at 30 deg") =
      Returned (m * cos (radians a), m * sin (radians a)) /\
    parse_vector (lib := Reference.lib) (PStr "5") = Returned (0, 0).
Proof.
  destruct (parse_vector_free_text (lib := Reference.lib)) as [Htext Hother].
  eexists. eexists.
  split; [| split; [| split]].
  3: { eapply (Htext "F=3 N at 30 deg"); reflexivity. }
  - literal.
  - literal.
  - apply Hother. reflexivity.
Defined.

(** C2, as the specification states it: the text "3 at 30" is not
    normalised like the mapping {magnitude: 3, angle_deg: 30}, and the bare
    scalar "5" is not normalised to [5, 0]. *)
Lemma parse_vector_free_text_counterexample :
  parse_vector (lib := Reference.lib) (PStr "3 at 30") <>
    parse_vector (lib := Reference.lib) (polar_dict 3 30) /\
  parse_vector (lib := Reference.lib) (PStr "5") <> Returned (5, 0).
Proof.
  split.
  - rewrite parse_vector_polar_dict.
    change (parse_vector (lib := Reference.lib) (PStr "3 at 30"))
      with (@Returned (R * R) (0, 0)).
    intros Heq. injection Heq as Hx _.
    rewrite cos_30_degrees in Hx. pose proof sqrt_3_window. lra.
  - change (parse_vector (lib := Reference.lib) (PStr "5"))
      with (@Returned (R * R) (0, 0)).
    intros Heq. injection Heq as Hx. lra.
Qed.

(** The example of the comment in [parse_vector], "F=3N at 30 deg", is
    normalised to the zero vector: the word "3N" is no float. *)
Example parse_vector_documented_example :
  parse_vector (lib := Reference.lib) (PStr "F=3N at 30 deg") = Returned (0, 0).
Proof. reflexivity. Qed.

(** The upper-case "AT" is not matched. *)
Example parse_vector_upper_case :
  parse_vector (lib := Reference.lib) (PStr "F=3 N AT 30 deg") = Returned (0, 0).
Proof. reflexivity. Qed.

(** A list of two elements that are no numbers raises. *)
Example parse_vector_bad_components :
  parse_vector (lib := Reference.lib) (PList [PStr "a"; PStr "b"]) = Raised ValueError /\
  parse_vector (lib := Reference.lib) (PList [PNone; PNum 1]) = Raised TypeError.
Proof. split; reflexivity. Qed.

Lemma parse_vector_unrecognised_witness :
  parse_vector (lib := Reference.lib) (PStr "3 N at an angle") = Returned (0, 0) /\
  parse_vector (lib := Reference.lib) (PList [PNum 1; PNum 2; PNum 3]) = Returned (0, 0).
Proof.
  split.
  - apply (parse_vector_unrecognised (lib := Reference.lib) (PStr "3 N at an angle")).
    reflexivity.
  - apply (parse_vector_unrecognised (lib := Reference.lib)
             (PList [PNum 1; PNum 2; PNum 3])).
    reflexivity.
Defined.

(** C5, as the specification states it: a diagnostic next to the zero
    vector. The unparsable text "push hard" has no recognised shape, and
    its outcome is the outcome of the zero vector itself. *)
Lemma parse_vector_no_diagnostic :
  recognised (lib := Reference.lib) (PStr "push hard") = false /\
  ~ diagnosed (lib := Reference.lib) (PStr "push hard").
Proof.
  split; [reflexivity |].
  intros Hd. apply Hd. reflexivity.
Qed.

Lemma smart_diagram_omits_failed_text_witness :
  exists dwg,
    smart_drawing (lib := Reference.lib) [components 3 4; PStr "push hard"] "Body" =
      Returned dwg /\
    arrows dwg = 1%nat /\ (arrows dwg < 2)%nat.
Proof.
  eexists. split; [reflexivity |].
  destruct (smart_diagram_omits_failed_text (lib := Reference.lib)
              [components 3 4] [] "push hard" "Body" eq_refl)
    as (_ & _ & _ & Harrows).
  destruct (Harrows _ eq_refl) as [Hcount Hless].
  split; [exact Hcount | exact Hless].
Defined.

End DiagramProps.

(** ** diagram/diagram.py: the renderer and the state of the process *)

Module ProcessProps.
Import PyMath Diagram Process.
Open Scope R_scope.

Lemma differ_at_refl (m dwg : nat) (s : state) : differ_at m dwg s s.
Proof. repeat split. Qed.

Lemma differ_at_trans (m dwg : nat) (s1 s2 s3 : state) :
  differ_at m dwg s1 s2 -> differ_at m dwg s2 s3 -> differ_at m dwg s1 s3.
Proof.
  intros (Hc & Hr & Hn & Hm & Hd) (Hc' & Hr' & Hn' & Hm' & Hd').
  repeat split; try congruence.
  - intros a Ha. rewrite Hm', Hm by exact Ha. reflexivity.
  - intros a Ha. rewrite Hd', Hd by exact Ha. reflexivity.
Qed.

(** A computation that changes only objects it has created leaves the
    objects that were there before as they were. *)
Lemma differ_at_untouched (s s' : state) :
  differ_at (length (markers s)) (length (drawings s)) s s' -> untouched s s'.
Proof.
  intros (Hc & Hr & Hn & Hm & Hd). repeat split; try assumption.
  - intros a o Ha. rewrite Hm; [exact Ha |].
    apply lookup_lt_Some in Ha. lia.
  - intros a o Ha. rewrite Hd; [exact Ha |].
    apply lookup_lt_Some in Ha. lia.
Qed.

Lemma lookup_app_new {A} (l : list A) (x : A) (a : nat) :
  a <> length l -> (l ++ [x]) !! a = l !! a.
Proof.
  intros Ha. destruct (decide (a < length l)%nat) as [Hlt | Hge].
  - apply lookup_app_l. exact Hlt.
  - rewrite !lookup_ge_None_2; [reflexivity | lia |].
    rewrite length_app. cbn. lia.
Qed.

(** *** The operations of svgwrite, one by one *)

Lemma Drawing_run (size : Svg.point) (s : state) :
  exists s',
    Drawing size s = Some (Returned (length (drawings s)), s') /\
    drawings s' !! length (drawings s) =
      Some {| drawing_size := size; drawing_defs := []; drawing_elements := [] |} /\
    markers s' = markers s /\
    forall m, differ_at m (length (drawings s)) s s'.
Proof.
  eexists. split; [reflexivity |]. cbn. split; [| split; [reflexivity |]].
  - apply list_lookup_middle. reflexivity.
  - intros m. repeat split. intros a Ha. cbn. apply lookup_app_new, Ha.
Qed.

Lemma marker_run (insert size : Svg.point) (orient : string) (id : option string)
  (s : state) :
  exists s',
    marker insert size orient id s = Some (Returned (length (markers s)), s') /\
    markers s' !! length (markers s) =
      Some {| marker_insert := insert; marker_size := size; marker_orient := orient;
              marker_id := id; marker_children := [] |} /\
    drawings s' = drawings s /\
    forall dwg, differ_at (length (markers s)) dwg s s'.
Proof.
  eexists. split; [reflexivity |]. cbn. split; [| split; [reflexivity |]].
  - apply list_lookup_middle. reflexivity.
  - intros dwg. repeat split. intros a Ha. cbn. apply lookup_app_new, Ha.
Qed.

Lemma marker_add_run (m : nat) (e : Svg.element) (mo : marker_obj) (s : state) :
  markers s !! m = Some mo ->
  exists s',
    marker_add m e s = Some (Returned (), s') /\
    markers s' !! m =
      Some {| marker_insert := marker_insert mo; marker_size := marker_size mo;
              marker_orient := marker_orient mo; marker_id := marker_id mo;
              marker_children := marker_children mo ++ [e] |} /\
    drawings s' = drawings s /\
    forall dwg, differ_at m dwg s s'.
Proof.
  intros Hm. unfold marker_add, update_marker. rewrite Hm.
  eexists. split; [reflexivity |]. cbn. split; [| split; [reflexivity |]].
  - apply list_lookup_insert_eq. eapply lookup_lt_Some, Hm.
  - intros dwg. repeat split. intros a Ha. cbn.
    apply list_lookup_insert_ne. congruence.
Qed.

Lemma defs_add_run (dwg m : nat) (d : drawing_obj) (s : state) :
  drawings s !! dwg = Some d ->
  exists s',
    defs_add dwg m s = Some (Returned (), s') /\
    drawings s' !! dwg =
      Some {| drawing_size := drawing_size d; drawing_defs := drawing_defs d ++ [m];
              drawing_elements := drawing_elements d |} /\
    markers s' = markers s /\
    forall m', differ_at m' dwg s s'.
Proof.
  intros Hd. unfold defs_add. rewrite Hd.
  eexists. split; [reflexivity |]. cbn. split; [| split; [reflexivity |]].
  - apply list_lookup_insert_eq. eapply lookup_lt_Some, Hd.
  - intros m'. repeat split. intros a Ha. cbn.
    apply list_lookup_insert_ne. congruence.
Qed.

Lemma add_run (dwg : nat) (e : Svg.element) (d : drawing_obj) (s : state) :
  drawings s !! dwg = Some d ->
  exists s',
    add dwg e s = Some (Returned (), s') /\
    drawings s' !! dwg =
      Some {| drawing_size := drawing_size d; drawing_defs := drawing_defs d;
              drawing_elements := drawing_elements d ++ [e] |} /\
    markers s' = markers s /\
    forall m, differ_at m dwg s s'.
Proof.
  intros Hd. unfold add. rewrite Hd.
  eexists. split; [reflexivity |]. cbn. split; [| split; [reflexivity |]].
  - apply list_lookup_insert_eq. eapply lookup_lt_Some, Hd.
  - intros m. repeat split. intros a Ha. cbn.
    apply list_lookup_insert_ne. congruence.
Qed.

(** Adding an element to a drawing object adds it to its snapshot. *)
Lemma add_snapshot (dwg : nat) (e : Svg.element) (d : Svg.Drawing) (s : state) :
  snapshot s dwg = Some d ->
  exists s',
    add dwg e s = Some (Returned (), s') /\
    snapshot s' dwg = Some (Svg.add d e) /\
    markers s' = markers s /\
    forall m, differ_at m dwg s s'.
Proof.
  intros Hs. unfold snapshot in Hs.
  destruct (drawings s !! dwg) as [o |] eqn:Ho; [| discriminate Hs].
  cbn in Hs.
  destruct (mapM _ (drawing_defs o)) as [defs |] eqn:Hdefs; [| discriminate Hs].
  cbn in Hs. injection Hs as <-.
  destruct (add_run dwg e o s Ho) as (s' & Hrun & Ho' & Hm & Hframe).
  exists s'. split; [exact Hrun |]. split; [| split; assumption].
  unfold snapshot. rewrite Ho', Hm. cbn. rewrite Hdefs. reflexivity.
Qed.

(** A marker whose id is set answers with it and leaves the counter of
    generated ids alone. *)
Lemma get_funciri_named (m : nat) (mo : marker_obj) (id : string) (s : state) :
  markers s !! m = Some mo -> marker_id mo = Some id ->
  get_funciri m s = Some (Returned (Svg.get_funciri id), s).
Proof.
  intros Hm Hid. unfold get_funciri, get_id, mbind, run_bind.
  rewrite Hm, Hid. reflexivity.
Qed.

(** A marker without id answers with a generated one: the answer tells how
    many ids the process has generated before, and the counter moves on.
    The [id="arrow"] of line 47 of diagram.py is what keeps the counter out
    of the markup. *)
Example get_funciri_generated :
  fst <$> get_funciri 0 (unnamed_marker 1) = Some (Returned "url(#id1)"%string) /\
  fst <$> get_funciri 0 (unnamed_marker 2) = Some (Returned "url(#id2)"%string) /\
  (next_id ∘ snd) <$> get_funciri 0 (unnamed_marker 1) = Some 2%N.
Proof. repeat split. Qed.

(** The one timestamp of the repository is in the client, outside the
    renderer: the name of the saved file reads the clock. *)
Example saved_filename_reads_clock :
  saved_filename (unnamed_marker 1) = "diagram_20250101_120000.svg"%string /\
  forall s, clock s = "20250101_120001"%string ->
            saved_filename s <> saved_filename (unnamed_marker 1).
Proof.
  split; [reflexivity |]. intros s Hs. unfold saved_filename. rewrite Hs.
  discriminate.
Qed.

(** *** Sequencing, one step at a time *)

Lemma bind_returned {A B} (m : run A) (f : A -> run B) (a : A) (s s' : state) :
  m s = Some (Returned a, s') -> (m ≫= f) s = f a s'.
Proof. intros Hm. unfold mbind, run_bind. rewrite Hm. reflexivity. Qed.

Lemma bind_raised {A B} (m : run A) (f : A -> run B) (e : exn) (s s' : state) :
  m s = Some (Raised e, s') -> (m ≫= f) s = Some (Raised e, s').
Proof. intros Hm. unfold mbind, run_bind. rewrite Hm. reflexivity. Qed.

Section WithLib.
Context {lib : PyLib}.

(** One iteration of the loop does to the drawing object what
    [Diagram.draw_force] does to the drawing, and raises when it raises. *)
Lemma draw_force_run (dwg m idx : nat) (force : gmap string pyval)
  (d : Svg.Drawing) (mo : marker_obj) (s : state) :
  snapshot s dwg = Some d ->
  markers s !! m = Some mo -> marker_id mo = Some "arrow"%string ->
  exists s',
    markers s' = markers s /\ (forall m', differ_at m' dwg s s') /\
    match Diagram.draw_force d idx force with
    | Returned d' =>
        Process.draw_force dwg m idx force s = Some (Returned (), s') /\
        snapshot s' dwg = Some d'
    | Raised e => Process.draw_force dwg m idx force s = Some (Raised e, s')
    end.
Proof.
  intros Hs Hm Hid. unfold Diagram.draw_force, Process.draw_force.
  destruct (py_getitem force "vector") as [v | e].
  2: { exists s. split; [reflexivity |].
       split; [intros; apply differ_at_refl | reflexivity]. }
  rewrite (bind_returned _ _ v s s eq_refl). cbn [mbind outcome_bind].
  destruct (parse_vector v) as [vec | e].
  2: { exists s. split; [reflexivity |].
       split; [intros; apply differ_at_refl | reflexivity]. }
  rewrite (bind_returned _ _ vec s s eq_refl). cbn zeta.
  rewrite (bind_returned _ _ _ s s (get_funciri_named m mo "arrow" s Hm Hid)).
  match goal with
  | |- context [add dwg ?line ≫= _] =>
      destruct (add_snapshot dwg line d s Hs) as (s1 & Hrun1 & Hs1 & Hm1 & Hf1)
  end.
  rewrite (bind_returned _ _ _ s s1 Hrun1).
  match goal with
  | |- context [add dwg ?text s1] =>
      destruct (add_snapshot dwg text _ s1 Hs1) as (s2 & Hrun2 & Hs2 & Hm2 & Hf2)
  end.
  exists s2. split; [congruence |].
  split; [intros m'; eapply differ_at_trans; [apply Hf1 | apply Hf2] |].
  split; [exact Hrun2 | exact Hs2].
Qed.

Lemma draw_forces_run (forces : list (gmap string pyval)) :
  forall (dwg m idx : nat) (d : Svg.Drawing) (mo : marker_obj) (s : state),
    snapshot s dwg = Some d ->
    markers s !! m = Some mo -> marker_id mo = Some "arrow"%string ->
    exists s',
      markers s' = markers s /\ (forall m', differ_at m' dwg s s') /\
      match Diagram.draw_forces d idx forces with
      | Returned d' =>
          Process.draw_forces dwg m idx forces s = Some (Returned (), s') /\
          snapshot s' dwg = Some d'
      | Raised e => Process.draw_forces dwg m idx forces s = Some (Raised e, s')
      end.
Proof.
  induction forces as [| force rest IH]; intros dwg m idx d mo s Hs Hm Hid.
  - exists s. split; [reflexivity |]. split; [intros; apply differ_at_refl |].
    split; [reflexivity | exact Hs].
  - cbn [Diagram.draw_forces Process.draw_forces].
    destruct (draw_force_run dwg m idx force d mo s Hs Hm Hid)
      as (s1 & Hm1 & Hf1 & Hstep).
    destruct (Diagram.draw_force d idx force) as [d1 | e].
    + destruct Hstep as [Hrun1 Hs1]. cbn [mbind outcome_bind].
      rewrite (bind_returned _ _ _ s s1 Hrun1).
      rewrite <- Hm1 in Hm.
      destruct (IH dwg m (S idx) d1 mo s1 Hs1 Hm Hid) as (s2 & Hm2 & Hf2 & Hrest).
      exists s2. split; [congruence |].
      split; [intros m'; eapply differ_at_trans; [apply Hf1 | apply Hf2] | exact Hrest].
    + exists s1. split; [exact Hm1 |]. split; [exact Hf1 |].
      cbn [mbind outcome_bind]. apply (bind_raised _ _ _ _ _ Hstep).
Qed.

(** A call of [draw_free_body], in whatever state it starts, ends with the
    outcome of [Diagram.draw_free_body] and has changed nothing but the
    drawing and the marker it has created. *)
Lemma draw_free_body_run (forces : list (gmap string pyval)) (object_name : string)
  (s : state) :
  exists s',
    Process.draw_free_body forces object_name s =
      Some (Diagram.draw_free_body forces object_name, s') /\
    untouched s s'.
Proof.
  set (dwg := length (drawings s)). set (m := length (markers s)).
  unfold Process.draw_free_body.
  destruct (Drawing_run (400, 400) s) as (s1 & Hrun1 & Hd1 & Hm1 & Hf1).
  fold dwg in Hrun1, Hd1, Hf1.
  rewrite (bind_returned _ _ _ _ _ Hrun1).
  match goal with
  | |- context [add dwg ?e ≫= _] =>
      destruct (add_run dwg e _ s1 Hd1) as (s2 & Hrun2 & Hd2 & Hm2 & Hf2)
  end.
  rewrite (bind_returned _ _ _ _ _ Hrun2).
  match goal with
  | |- context [add dwg ?e ≫= _] =>
      destruct (add_run dwg e _ s2 Hd2) as (s3 & Hrun3 & Hd3 & Hm3 & Hf3)
  end.
  rewrite (bind_returned _ _ _ _ _ Hrun3).
  destruct (marker_run (10, 5) (10, 10) "auto" (Some "arrow"%string) s3)
    as (s4 & Hrun4 & Ho4 & Hd4 & Hf4).
  assert (length (markers s3) = m) as Hlen by (unfold m; congruence).
  rewrite Hlen in Hrun4, Ho4, Hf4.
  rewrite (bind_returned _ _ _ _ _ Hrun4).
  match goal with
  | |- context [marker_add m ?e ≫= _] =>
      destruct (marker_add_run m e _ s4 Ho4) as (s5 & Hrun5 & Ho5 & Hd5 & Hf5)
  end.
  rewrite (bind_returned _ _ _ _ _ Hrun5).
  rewrite <- Hd4, <- Hd5 in Hd3.
  destruct (defs_add_run dwg m _ s5 Hd3) as (s6 & Hrun6 & Hd6 & Hm6 & Hf6).
  rewrite (bind_returned _ _ _ _ _ Hrun6).
  rewrite <- Hm6 in Ho5.
  assert (snapshot s6 dwg = Some (init_drawing object_name)) as Hs6.
  { unfold snapshot. rewrite Hd6. cbn. rewrite Ho5. reflexivity. }
  destruct (draw_forces_run forces dwg m 0 _ _ s6 Hs6 Ho5 eq_refl)
    as (s7 & Hm7 & Hf7 & Hloop).
  assert (differ_at m dwg s s7) as Hframe.
  { apply (differ_at_trans _ _ _ s1); [apply Hf1 |].
    apply (differ_at_trans _ _ _ s2); [apply Hf2 |].
    apply (differ_at_trans _ _ _ s3); [apply Hf3 |].
    apply (differ_at_trans _ _ _ s4); [apply Hf4 |].
    apply (differ_at_trans _ _ _ s5); [apply Hf5 |].
    apply (differ_at_trans _ _ _ s6); [apply Hf6 | apply Hf7]. }
  exists s7. split; [| apply differ_at_untouched, Hframe].
  unfold Diagram.draw_free_body, free_body_drawing.
  destruct (Diagram.draw_forces (init_drawing object_name) 0 forces) as [d' | e].
  - destruct Hloop as [Hrun7 Hs7].
    rewrite (bind_returned _ _ _ _ _ Hrun7).
    unfold Process.tostring. rewrite Hs7. reflexivity.
  - apply (bind_raised _ _ _ _ _ Hloop).
Qed.

(** C4. The renderer is deterministic.  Two calls of [draw_free_body] with
    the same ordered list of forces and the same object name end with the
    same outcome, in particular with byte-identical markup, in whatever two
    states of the process they are made: whatever the clock and the random
    generator read, however many ids svgwrite has generated before, and
    whatever drawings are in memory.  The outcome is that of
    [Diagram.draw_free_body], a function of the two arguments.  This holds
    also of a second call made in the state that the first has left; the
    first leaves the clock, the generator, the id counter and every object
    that was there before it as they were. *)
Theorem draw_free_body_same_markup
  (forces : list (gmap string pyval)) (object_name : string) :
  (forall s1 s2 : state, exists (o : outcome string) (s1' s2' : state),
      Process.draw_free_body forces object_name s1 = Some (o, s1') /\
      Process.draw_free_body forces object_name s2 = Some (o, s2') /\
      o = Diagram.draw_free_body forces object_name) /\
  (forall s : state, exists (o : outcome string) (s' s'' : state),
      Process.draw_free_body forces object_name s = Some (o, s') /\
      untouched s s' /\
      Process.draw_free_body forces object_name s' = Some (o, s'')).
Proof.
  split.
  - intros s1 s2.
    destruct (draw_free_body_run forces object_name s1) as (s1' & H1 & _).
    destruct (draw_free_body_run forces object_name s2) as (s2' & H2 & _).
    exists (Diagram.draw_free_body forces object_name), s1', s2'. auto.
  - intros s.
    destruct (draw_free_body_run forces object_name s) as (s' & H1 & Hu).
    destruct (draw_free_body_run forces object_name s') as (s'' & H2 & _).
    exists (Diagram.draw_free_body forces object_name), s', s''. auto.
Qed.

End WithLib.

End ProcessProps.

(** ** math/math_server.py *)

Module MathServerProps.
Import MathServer.

Lemma prefix_app (p rest : string) : String.prefix p (p +:+ rest) = true.
Proof.
  induction p as [| c p IH].
  - destruct rest; reflexivity.
  - change (String c p +:+ rest) with (String c (p +:+ rest)).
    cbn [String.prefix].
    destruct (ascii_dec c c); [exact IH | contradiction].
Qed.

Lemma contains_unfold (sub s : string) :
  PyStr.contains sub s =
  String.prefix sub s ||
  match s with
  | EmptyString => false
  | String _ s' => PyStr.contains sub s'
  end.
Proof. destruct s; reflexivity. Qed.

Lemma contains_prefix (p rest : string) : PyStr.contains p (p +:+ rest) = true.
Proof. rewrite contains_unfold, prefix_app. reflexivity. Qed.

Lemma contains_app_r (sub before s : string) :
  PyStr.contains sub s = true -> PyStr.contains sub (before +:+ s) = true.
Proof.
  intros Hs. induction before as [| c before IH]; [exact Hs |].
  change (String c before +:+ s) with (String c (before +:+ s)).
  rewrite contains_unfold, IH. apply orb_true_r.
Qed.

(** A text occurs in every text built around it. *)
Lemma contains_middle (sub before after : string) :
  PyStr.contains sub (before +:+ sub +:+ after) = true.
Proof. apply contains_app_r, contains_prefix. Qed.

Section WithEvaluators.
Context {ev : Evaluators}.

Lemma error_message_has_both (pint_exc sympy_exc : string) :
  PyStr.contains pint_exc (error_message pint_exc sympy_exc) = true /\
  PyStr.contains sympy_exc (error_message pint_exc sympy_exc) = true.
Proof.
  unfold error_message. split.
  - apply contains_middle.
  - apply contains_app_r, contains_app_r, contains_middle.
Qed.

(** The dimension-aware evaluation calls pint only. *)
Lemma pint_eval_calls (expr : string) (lib : library) :
  lib ∈ calls (pint_eval expr) -> lib = Pint.
Proof.
  unfold pint_eval, call. cbn [mbind traced_bind mret traced_ret calls result].
  intros Hin.
  repeat match type of Hin with
    | context [match ?a with Success _ => _ | Failure _ => _ end] =>
        destruct a; cbn [calls result] in Hin
    end;
    repeat (rewrite ?elem_of_app, ?elem_of_cons, ?elem_of_nil in Hin);
    intuition congruence.
Qed.

(** C3. When both the dimension-aware and the symbolic evaluation fail,
    [evaluate_expression] returns the combined error message, which
    contains the cause of each failure; when the dimension-aware
    evaluation succeeds, its text is returned and sympy is not called. *)
Theorem evaluate_expression_fallback (expr : string) :
  (forall pint_exc sympy_exc : string,
      result (pint_eval expr) = Failure pint_exc ->
      result (sympy_eval expr) = Failure sympy_exc ->
      evaluate_expression expr = error_message pint_exc sympy_exc /\
      PyStr.contains pint_exc (evaluate_expression expr) = true /\
      PyStr.contains sympy_exc (evaluate_expression expr) = true) /\
  (forall text : string,
      result (pint_eval expr) = Success text ->
      evaluate_expression expr = text /\
      SymPy ∉ fst (evaluate_traced expr)).
Proof.
  split.
  - intros pint_exc sympy_exc Hp Hs.
    assert (evaluate_expression expr = error_message pint_exc sympy_exc) as ->.
    { unfold evaluate_expression, evaluate_traced, try_except.
      rewrite Hp. cbn [snd]. rewrite Hs. reflexivity. }
    split; [reflexivity | apply error_message_has_both].
  - intros text Hp.
    unfold evaluate_expression, evaluate_traced, try_except.
    rewrite Hp. cbn [fst snd]. split; [reflexivity |].
    intros Hin. apply pint_eval_calls in Hin. discriminate.
Qed.

End WithEvaluators.

Lemma evaluate_expression_fallback_witness :
  evaluate_expression (ev := Reference.evaluators) "push hard" =
    "Error: Could not evaluate expression. (Pint: UndefinedUnitError; SymPy: SympifyError)" /\
  evaluate_expression (ev := Reference.evaluators) "5 N" = "5 N = 5 N = 5 kg*m/s**2" /\
  SymPy ∉ fst (evaluate_traced (ev := Reference.evaluators) "5 N").
Proof.
  split.
  - apply (proj1 (evaluate_expression_fallback (ev := Reference.evaluators) "push hard")
             "UndefinedUnitError" "SympifyError"); reflexivity.
  - apply (proj2 (evaluate_expression_fallback (ev := Reference.evaluators) "5 N")
             "5 N = 5 N = 5 kg*m/s**2"). reflexivity.
Defined.

End MathServerProps.

(** * Further properties *)

(** ** vectors/vectors.py: adding and subtracting *)

Module VectorToolsExtra.
Import PyMath PyFacts Vectors VectorsTools VectorInput.
Open Scope R_scope.

(** Case analysis on every comparison of the goal. *)
Ltac case_compare :=
  repeat match goal with
    | |- context [Rlt_dec ?a ?b] => destruct (Rlt_dec a b); try nra
    | |- context [Rle_dec ?a ?b] => destruct (Rle_dec a b); try nra
    end.

Lemma to_list_json (w : vector_input) :
  to_list (to_json w) = Returned (components (fst (cartesian w)) (snd (cartesian w))).
Proof. destruct w; reflexivity. Qed.

Lemma combine_json (op : pyval -> pyval -> outcome pyval) (title : string)
      (w1 w2 : vector_input) :
  combine op title (to_json w1) (to_json w2) =
  (r0 ← op (PNum (fst (cartesian w1))) (PNum (fst (cartesian w2)));
   r1 ← op (PNum (snd (cartesian w1))) (PNum (snd (cartesian w2)));
   text ← vector_display [r0; r1];
   Returned (title +:+ newline +:+ text)).
Proof. unfold combine. rewrite !to_list_json. reflexivity. Qed.

(** X3. [add_vectors] adds what the notations stand for: for two numeric
    vectors, each given as components or as magnitude and angle, the answer
    is the display of the componentwise sum of their Cartesian components;
    hence the answer does not depend on the order of the two vectors. *)
Theorem add_vectors_sum (w1 w2 : vector_input) :
  add_vectors (to_json w1) (to_json w2) =
    Returned ("Sum of vectors:" +:+ newline +:+
              display_text (fst (cartesian w1) + fst (cartesian w2))
                           (snd (cartesian w1) + snd (cartesian w2))) /\
  add_vectors (to_json w1) (to_json w2) = add_vectors (to_json w2) (to_json w1).
Proof.
  unfold add_vectors. rewrite !combine_json. cbn. split; [reflexivity |].
  rewrite (Rplus_comm (fst (cartesian w2))), (Rplus_comm (snd (cartesian w2))).
  reflexivity.
Qed.

(** X4. [subtract_vectors] subtracts what the notations stand for, and the
    difference of a vector with itself is displayed as the zero vector:
    components 0.00, magnitude 0.00, direction 0.00. *)
Theorem subtract_vectors_difference (w1 w2 : vector_input) :
  subtract_vectors (to_json w1) (to_json w2) =
    Returned ("Difference of vectors:" +:+ newline +:+
              display_text (fst (cartesian w1) - fst (cartesian w2))
                           (snd (cartesian w1) - snd (cartesian w2))) /\
  subtract_vectors (to_json w1) (to_json w1) =
    Returned ("Difference of vectors:" +:+ newline +:+
              "Components: (0.00 N, 0.00 N)" +:+ newline +:+
              "Magnitude: 0.00 N" +:+ newline +:+
              "Direction: 0.00° CCW from +x axis").
Proof.
  unfold subtract_vectors. rewrite !combine_json. cbn. split; [reflexivity |].
  do 2 f_equal. unfold display_text, to_magnitude_angle. cbn [magnitude angle_deg].
  rewrite !Rminus_diag.
  assert (hypot 0 0 = 0) as ->.
  { unfold hypot. replace (0 * 0 + 0 * 0) with 0 by ring. apply sqrt_0. }
  assert (degrees (atan2 0 0) = 0) as ->.
  { unfold atan2, degrees. case_compare; lra. }
  destruct (Rlt_dec 0 0); [lra |].
  rewrite (fixed_near 2 0 0) by (simpl; lra). reflexivity.
Qed.

Lemma to_list_not_polar (v : pyval) : is_polar v = false -> to_list v = Returned v.
Proof.
  destruct v as [| b | r | s | l | d]; try reflexivity.
  cbn [is_polar to_list]. intros ->. reflexivity.
Qed.

Lemma combine_not_pairs (op : pyval -> pyval -> outcome pyval) (title : string)
      (v1 v2 : pyval) :
  is_polar v1 = false -> is_polar v2 = false ->
  is_pair v1 && is_pair v2 = false ->
  combine op title v1 v2 = Returned shape_error.
Proof.
  intros H1 H2 Hp. unfold combine.
  rewrite (to_list_not_polar v1 H1), (to_list_not_polar v2 H2).
  cbn [mbind outcome_bind].
  destruct v1 as [| | | | [| a0 [| a1 [| a2 l1]]] |]; try reflexivity;
    destruct v2 as [| | | | [| b0 [| b1 [| b2 l2]]] |]; try reflexivity.
  discriminate Hp.
Qed.

(** X5. When neither vector is a mapping with both keys and they are not
    both lists of two elements, [add_vectors] and [subtract_vectors] return
    the "Error: Each vector must be ..." text; they do not raise. *)
Theorem vector_tools_shape_error (v1 v2 : pyval) :
  is_polar v1 = false -> is_polar v2 = false ->
  is_pair v1 && is_pair v2 = false ->
  add_vectors v1 v2 = Returned shape_error /\
  subtract_vectors v1 v2 = Returned shape_error.
Proof.
  intros H1 H2 Hp. split; apply combine_not_pairs; assumption.
Qed.

Lemma vector_tools_shape_error_witness :
  add_vectors (PList [PNum 1; PNum 2; PNum 3]) (components 1 2) = Returned shape_error /\
  subtract_vectors (PStr "3 N east") PNone = Returned shape_error.
Proof.
  split.
  - apply (vector_tools_shape_error (PList [PNum 1; PNum 2; PNum 3]) (components 1 2));
      reflexivity.
  - apply (vector_tools_shape_error (PStr "3 N east") PNone); reflexivity.
Defined.

Lemma py_number_not_number (v : pyval) :
  is_number v = false -> Diagram.py_number v = Raised TypeError.
Proof. destruct v; try discriminate; reflexivity. Qed.

Lemma vector_display_not_numbers (r0 r1 : pyval) :
  is_number r0 && is_number r1 = false -> vector_display [r0; r1] = Raised TypeError.
Proof.
  intros Hn. unfold vector_display, py_index. cbn [lookup list_lookup mbind outcome_bind].
  destruct (is_number r0) eqn:H0.
  - cbn [andb] in Hn. rewrite (py_number_not_number r1 Hn).
    destruct r0; try discriminate H0; reflexivity.
  - rewrite (py_number_not_number r0 H0). reflexivity.
Qed.

Section Arithmetic.
Variable op : pyval -> pyval -> outcome pyval.

(** On operands that are not both numbers, [op] raises or gives a value
    that is no number. *)
Hypothesis op_not_numbers :
  forall a b r,
    is_number a && is_number b = false -> op a b = Returned r -> is_number r = false.

(** [op] raises nothing but a TypeError. *)
Hypothesis op_raises : forall a b e, op a b = Raised e -> e = TypeError.

Lemma combine_not_numbers (title : string) (a0 a1 b0 b1 : pyval) :
  forallb is_number [a0; a1; b0; b1] = false ->
  combine op title (PList [a0; a1]) (PList [b0; b1]) = Raised TypeError.
Proof.
  intros Hn. unfold combine. cbn [to_list mbind outcome_bind].
  destruct (op a0 b0) as [r0 | e0] eqn:H0;
    [| rewrite (op_raises _ _ _ H0); reflexivity].
  cbn [mbind outcome_bind].
  destruct (op a1 b1) as [r1 | e1] eqn:H1;
    [| rewrite (op_raises _ _ _ H1); reflexivity].
  cbn [mbind outcome_bind].
  rewrite vector_display_not_numbers; [reflexivity |].
  destruct (is_number a0 && is_number b0) eqn:Hab0.
  - assert (is_number a1 && is_number b1 = false) as Hab1.
    { cbn [forallb] in Hn. apply andb_true_iff in Hab0 as [Ha Hb].
      rewrite Ha, Hb in Hn. cbn [andb] in Hn.
      rewrite andb_true_r in Hn. destruct (is_number a1); [exact Hn | reflexivity]. }
    rewrite (op_not_numbers _ _ _ Hab1 H1). apply andb_false_r.
  - rewrite (op_not_numbers _ _ _ Hab0 H0). reflexivity.
Qed.

End Arithmetic.

Lemma add_not_numbers (a b r : pyval) :
  is_number a && is_number b = false -> PyOps.add a b = Returned r -> is_number r = false.
Proof.
  intros Hn Hr.
  destruct a, b; try discriminate Hn; cbn [PyOps.add] in Hr;
    try discriminate Hr; injection Hr as <-; reflexivity.
Qed.

Lemma add_raises (a b : pyval) (e : exn) : PyOps.add a b = Raised e -> e = TypeError.
Proof. destruct a, b; cbn [PyOps.add]; intros Hr; congruence. Qed.

Lemma sub_not_numbers (a b r : pyval) :
  is_number a && is_number b = false -> PyOps.sub a b = Returned r -> is_number r = false.
Proof.
  intros Hn Hr.
  destruct a, b; try discriminate Hn; cbn [PyOps.sub] in Hr; discriminate Hr.
Qed.

Lemma sub_raises (a b : pyval) (e : exn) : PyOps.sub a b = Raised e -> e = TypeError.
Proof. destruct a, b; cbn [PyOps.sub]; intros Hr; congruence. Qed.

(** X6. Content that is no number makes the vector tools raise a TypeError
    instead of returning the "Error:" text: two lists of two elements of
    which one element is no number (text included, which [+] would join),
    and a mapping whose magnitude or angle is no number, whatever the other
    vector is. *)
Theorem vector_tools_type_error :
  (forall a0 a1 b0 b1 : pyval,
      forallb is_number [a0; a1; b0; b1] = false ->
      add_vectors (PList [a0; a1]) (PList [b0; b1]) = Raised TypeError /\
      subtract_vectors (PList [a0; a1]) (PList [b0; b1]) = Raised TypeError) /\
  (forall (d : gmap string pyval) (m a other : pyval),
      d !! "magnitude" = Some m -> d !! "angle_deg" = Some a ->
      is_number m && is_number a = false ->
      add_vectors (PDict d) other = Raised TypeError /\
      subtract_vectors (PDict d) other = Raised TypeError).
Proof.
  split.
  - intros a0 a1 b0 b1 Hn. split.
    + apply (combine_not_numbers PyOps.add add_not_numbers add_raises). exact Hn.
    + apply (combine_not_numbers PyOps.sub sub_not_numbers sub_raises). exact Hn.
  - intros d m a other Hm Ha Hn.
    assert (to_list (PDict d) = Raised TypeError) as Hl.
    { cbn [to_list]. unfold py_has_key, py_getitem. rewrite Hm, Ha.
      rewrite !bool_decide_eq_true_2 by eauto. cbn [andb mbind outcome_bind].
      unfold from_magnitude_angle_values.
      destruct (is_number a) eqn:Hna.
      - rewrite andb_true_r in Hn. rewrite (py_number_not_number m Hn).
        destruct a; try discriminate Hna; reflexivity.
      - rewrite (py_number_not_number a Hna). reflexivity. }
    unfold add_vectors, subtract_vectors, combine. rewrite Hl. split; reflexivity.
Qed.

Lemma vector_tools_type_error_witness :
  add_vectors (PList [PStr "3"; PStr "4"]) (PList [PStr "1"; PStr "2"]) = Raised TypeError /\
  add_vectors (PDict (<["magnitude" := PStr "10"]> (<["angle_deg" := PNum 30]> ∅)))
              (components 1 2) = Raised TypeError.
Proof.
  destruct vector_tools_type_error as [Hlists Hmapping]. split.
  - apply (Hlists (PStr "3") (PStr "4") (PStr "1") (PStr "2")). reflexivity.
  - apply (Hmapping _ (PStr "10") (PNum 30) (components 1 2)); reflexivity.
Defined.

End VectorToolsExtra.

(** ** forces/forces.py *)

Module ForcesExtra.
Import PyMath PyFacts Forces.
Open Scope R_scope.

(** X7. The flat-surface case of [normal_force] agrees with the incline
    formula: for every angle, 0 included, the result is m*g*cos(theta), and
    so it never exceeds the weight m*g in absolute value. *)
Theorem normal_force_formula_and_bound (m g theta_deg : R) :
  normal_force m g theta_deg = m * g * cos (radians theta_deg) /\
  Rabs (normal_force m g theta_deg) <= Rabs (weight m g).
Proof.
  assert (normal_force m g theta_deg = m * g * cos (radians theta_deg)) as Hn.
  { unfold normal_force. destruct (Req_dec_T theta_deg 0) as [-> | Hne]; [| reflexivity].
    unfold radians. rewrite Rmult_0_l, cos_0. reflexivity. }
  split; [exact Hn |].
  rewrite Hn. unfold weight. rewrite Rabs_mult.
  pose proof (COS_bound (radians theta_deg)) as [Hlo Hhi].
  pose proof (Rabs_pos (m * g)) as Hpos.
  assert (Rabs (cos (radians theta_deg)) <= 1) as Hc.
  { apply Rabs_le. lra. }
  nra.
Qed.

End ForcesExtra.

(** ** diagram/diagram.py: the renderer *)

Module RendererExtra.
Import PyMath PyFacts Svg SvgView Diagram DiagramView.
Open Scope R_scope.

Section WithLib.
Context {lib : PyLib}.

Lemma draw_force_elements (dwg dwg' : Drawing) (idx : nat) (force : gmap string pyval) :
  draw_force dwg idx force = Returned dwg' <->
  exists vec, drawable force vec /\
              dwg' = {| size := size dwg; defs := defs dwg;
                        elements := elements dwg ++ force_elements idx force vec |}.
Proof.
  unfold draw_force, drawable, py_getitem. split.
  - intros Hd. destruct (force !! "vector") as [v |] eqn:Hv; [| discriminate].
    cbn [mbind outcome_bind] in Hd.
    destruct (parse_vector v) as [vec | e] eqn:Hp; [| discriminate].
    cbn [mbind outcome_bind] in Hd. injection Hd as <-.
    exists vec. split; [eauto |].
    unfold add. cbn [size defs elements]. rewrite <- app_assoc. reflexivity.
  - intros (vec & (v & Hv & Hp) & ->). rewrite Hv. cbn [mbind outcome_bind].
    rewrite Hp. cbn [mbind outcome_bind].
    unfold add. cbn [size defs elements]. rewrite <- app_assoc. reflexivity.
Qed.

Lemma draw_forces_elements (forces : list (gmap string pyval)) :
  forall (dwg dwg' : Drawing) (idx : nat),
    draw_forces dwg idx forces = Returned dwg' <->
    exists vecs, Forall2 drawable forces vecs /\
                 dwg' = {| size := size dwg; defs := defs dwg;
                           elements := elements dwg ++ loop_elements idx (zip forces vecs) |}.
Proof.
  induction forces as [| force rest IH]; intros dwg dwg' idx; cbn [draw_forces].
  - split.
    + intros Hd. injection Hd as <-. exists []. split; [constructor |].
      cbn [zip_with loop_elements]. rewrite app_nil_r. destruct dwg; reflexivity.
    + intros (vecs & Hf & ->). apply Forall2_nil_inv_l in Hf as ->.
      cbn [zip_with loop_elements]. rewrite app_nil_r. destruct dwg; reflexivity.
  - split.
    + intros Hd. destruct (draw_force dwg idx force) as [dwg1 | e] eqn:H1; [| discriminate].
      cbn [mbind outcome_bind] in Hd.
      apply draw_force_elements in H1 as (vec & Hvec & ->).
      apply IH in Hd as (vecs & Hvecs & ->). cbn [size defs elements].
      exists (vec :: vecs). split; [constructor; assumption |].
      cbn [zip_with loop_elements]. rewrite <- app_assoc. reflexivity.
    + intros (vecs & Hf & ->).
      apply Forall2_cons_inv_l in Hf as (vec & vecs' & Hvec & Hvecs & ->).
      assert (draw_force dwg idx force =
              Returned {| size := size dwg; defs := defs dwg;
                          elements := elements dwg ++ force_elements idx force vec |}) as ->.
      { apply draw_force_elements. eauto. }
      cbn [mbind outcome_bind]. apply IH. exists vecs'. split; [assumption |].
      cbn [size defs elements zip_with loop_elements]. rewrite <- app_assoc. reflexivity.
Qed.

Lemma free_body_drawing_elements (forces : list (gmap string pyval))
      (object_name : string) (dwg : Drawing) :
  free_body_drawing forces object_name = Returned dwg <->
  exists vecs, Forall2 drawable forces vecs /\
               dwg = {| size := (400, 400); defs := [arrow_marker];
                        elements := elements (init_drawing object_name) ++
                                    loop_elements 0 (zip forces vecs) |}.
Proof. unfold free_body_drawing. apply draw_forces_elements. Qed.

Lemma drawable_functional (force : gmap string pyval) (vec vec' : R * R) :
  drawable force vec -> drawable force vec' -> vec = vec'.
Proof. intros (v & Hv & Hp) (v' & Hv' & Hp'). congruence. Qed.

Lemma loop_arrows (drawn : list (gmap string pyval * (R * R))) :
  forall (idx i : nat) (force : gmap string pyval) (vec : R * R),
    drawn !! i = Some (force, vec) ->
    omap arrow_of (loop_elements idx drawn) !! i =
      Some (Arrow center (arrow_tip vec) (stroke_color (idx + i)) (get_funciri "arrow")) /\
    omap caption_of (loop_elements idx drawn) !! i =
      Some (Caption (label_of force vec) (label_at vec) (stroke_color (idx + i))).
Proof.
  induction drawn as [| [force0 vec0] rest IH]; intros idx i force vec Hi; [discriminate |].
  cbn [loop_elements force_elements app omap list_omap arrow_of caption_of].
  destruct i as [| i].
  - injection Hi as -> ->. rewrite Nat.add_0_r. split; reflexivity.
  - cbn [lookup list_lookup] in Hi |- *. specialize (IH (S idx) i force vec Hi).
    replace (idx + S i)%nat with (S idx + i)%nat by lia. exact IH.
Qed.

Lemma loop_lengths (drawn : list (gmap string pyval * (R * R))) :
  forall idx : nat,
    length (loop_elements idx drawn) = (2 * length drawn)%nat /\
    length (omap arrow_of (loop_elements idx drawn)) = length drawn /\
    length (omap caption_of (loop_elements idx drawn)) = length drawn.
Proof.
  induction drawn as [| [force vec] rest IH]; intros idx.
  - repeat split; reflexivity.
  - cbn [loop_elements force_elements app omap list_omap arrow_of caption_of length].
    destruct (IH (S idx)) as (H1 & H2 & H3). repeat split; lia.
Qed.

(** The arrow and the label of the force at position [i]. *)
Lemma drawn_force (forces : list (gmap string pyval)) (object_name : string)
      (dwg : Drawing) (i : nat) (force : gmap string pyval) (vec : R * R) :
  free_body_drawing forces object_name = Returned dwg ->
  forces !! i = Some force -> drawable force vec ->
  arrow_list dwg !! i =
    Some (Arrow center (arrow_tip vec) (stroke_color i) (get_funciri "arrow")) /\
  caption_list dwg !! (S i) =
    Some (Caption (label_of force vec) (label_at vec) (stroke_color i)).
Proof.
  intros Hd Hi Hvec.
  apply free_body_drawing_elements in Hd as (vecs & Hvecs & ->).
  destruct (Forall2_lookup_l _ _ _ _ _ Hvecs Hi) as (vec' & Hi' & Hvec').
  rewrite (drawable_functional _ _ _ Hvec Hvec').
  assert (zip forces vecs !! i = Some (force, vec')) as Hz.
  { rewrite lookup_zip_with, Hi. cbn. rewrite Hi'. reflexivity. }
  destruct (loop_arrows _ 0 i force vec' Hz) as [Ha Hc].
  unfold arrow_list, caption_list. cbn [elements init_drawing].
  split; [exact Ha | exact Hc].
Qed.

(** X13. Colours follow the position: the arrow of the force at position i
    has the colour number i mod 7 of the palette, and its label is written in
    the same colour. *)
Theorem arrow_colour_by_position
        (forces : list (gmap string pyval)) (object_name : string) (dwg : Drawing)
        (i : nat) (force : gmap string pyval) (vec : R * R) :
  free_body_drawing forces object_name = Returned dwg ->
  forces !! i = Some force -> drawable force vec ->
  exists a c,
    arrow_list dwg !! i = Some a /\
    caption_list dwg !! (S i) = Some c /\
    color_cycle !! (i mod 7)%nat = Some (arrow_stroke a) /\
    caption_fill c = arrow_stroke a.
Proof.
  intros Hd Hi Hvec. destruct (drawn_force _ _ _ _ _ _ Hd Hi Hvec) as [Ha Hc].
  eexists. eexists. split; [exact Ha |]. split; [exact Hc |].
  cbn [arrow_stroke caption_fill]. split; [| reflexivity].
  unfold stroke_color. destruct (DiagramProps.color_defined i) as [c Hcol].
  change (List.length color_cycle) with 7%nat in *. rewrite Hcol. reflexivity.
Qed.

(** X14. The label of a force is the value under its "label" key, whatever
    it is, and the generated text " (magnitude N @ angle°)" when the key is
    absent; it is written at the midpoint of the arrow moved by (10, -10).
    The first text of the drawing is the object name at (178, 245). *)
Theorem label_supplied_or_generated
        (forces : list (gmap string pyval)) (object_name : string) (dwg : Drawing)
        (i : nat) (force : gmap string pyval) (x y : R) :
  free_body_drawing forces object_name = Returned dwg ->
  forces !! i = Some force -> drawable force (x, y) ->
  exists a c,
    arrow_list dwg !! i = Some a /\
    caption_list dwg !! (S i) = Some c /\
    (forall l, force !! "label" = Some l -> caption_text c = l) /\
    (force !! "label" = None ->
     caption_text c =
       PStr (" (" +:+ PyFormat.fixed 2 (hypot x y) +:+ " N @ " +:+
             PyFormat.fixed 1 (fmod (degrees (atan2 y x) + 360) 360) +:+ "°)")) /\
    fst (caption_at c) = (200 + fst (arrow_end a)) / 2 + 10 /\
    snd (caption_at c) = (200 + snd (arrow_end a)) / 2 - 10 /\
    exists name_at,
      caption_list dwg !! 0%nat = Some (Caption (PStr object_name) name_at "black") /\
      fst name_at = 178 /\ snd name_at = 245.
Proof.
  intros Hd Hi Hvec. destruct (drawn_force _ _ _ _ _ _ Hd Hi Hvec) as [Ha Hc].
  eexists. eexists. split; [exact Ha |]. split; [exact Hc |].
  cbn [caption_text caption_at arrow_end]. unfold label_of.
  split; [intros l ->; reflexivity |]. split; [intros ->; reflexivity |].
  split; [reflexivity |]. split; [reflexivity |].
  apply free_body_drawing_elements in Hd as (vecs & _ & ->).
  eexists. split; [reflexivity |]. unfold center. cbn [fst snd]. split; lra.
Qed.

Lemma loop_arrows_marked (drawn : list (gmap string pyval * (R * R))) :
  forall idx : nat,
    Forall (fun a => arrow_start a = center /\ arrow_marker_end a = "url(#arrow)"%string)
           (omap arrow_of (loop_elements idx drawn)).
Proof.
  induction drawn as [| [force vec] rest IH]; intros idx.
  - constructor.
  - cbn [loop_elements force_elements app omap list_omap arrow_of].
    constructor; [split; reflexivity | apply IH].
Qed.

(** X15. The shape of a rendered drawing: the canvas is 400 by 400, the
    arrowhead marker is defined exactly once however many forces there are,
    the drawing starts with the grey circle and the object name, and then
    holds one arrow and one label per force, 2 + 2n elements in all; every
    arrow refers to that one marker. *)
Theorem drawing_structure
        (forces : list (gmap string pyval)) (object_name : string) (dwg : Drawing) :
  free_body_drawing forces object_name = Returned dwg ->
  size dwg = (400, 400) /\
  defs dwg = [arrow_marker] /\
  take 2 (elements dwg) =
    [Circle center 20 "lightgrey" "black" 2;
     Text (PStr object_name) (fst center - 22, snd center + 45) "16px" "black"] /\
  length (elements dwg) = (2 + 2 * length forces)%nat /\
  length (arrow_list dwg) = length forces /\
  length (caption_list dwg) = S (length forces) /\
  Forall (fun a => arrow_start a = center /\ arrow_marker_end a = "url(#arrow)"%string)
         (arrow_list dwg).
Proof.
  intros Hd. apply free_body_drawing_elements in Hd as (vecs & Hvecs & ->).
  destruct (loop_lengths (zip forces vecs) 0) as (H1 & H2 & H3).
  assert (length (zip forces vecs) = length forces) as Hz.
  { rewrite length_zip_with. apply Forall2_length in Hvecs. lia. }
  unfold arrow_list, caption_list. cbn [size defs elements init_drawing add defs_add
    new_drawing app take omap list_omap arrow_of caption_of length].
  repeat split; try lia.
  apply loop_arrows_marked.
Qed.

Lemma drawable_all (forces : list (gmap string pyval)) :
  Forall (fun force => exists vec, drawable force vec) forces <->
  exists vecs, Forall2 drawable forces vecs.
Proof.
  split.
  - induction 1 as [| force rest [vec Hvec] _ [vecs Hvecs]].
    + exists []. constructor.
    + exists (vec :: vecs). constructor; assumption.
  - intros [vecs Hvecs]. induction Hvecs; constructor; eauto.
Qed.

Lemma draw_forces_app (before after : list (gmap string pyval)) :
  forall (dwg : Drawing) (idx : nat),
    draw_forces dwg idx (before ++ after) =
    (dwg' ← draw_forces dwg idx before;
     draw_forces dwg' (idx + length before) after).
Proof.
  induction before as [| force rest IH]; intros dwg idx; cbn [app draw_forces length].
  - cbn [mbind outcome_bind]. rewrite Nat.add_0_r. reflexivity.
  - destruct (draw_force dwg idx force) as [dwg1 | e]; [| reflexivity].
    cbn [mbind outcome_bind]. rewrite IH.
    replace (S idx + length rest)%nat with (idx + S (length rest))%nat by lia.
    reflexivity.
Qed.

(** X17. One force that cannot be drawn aborts the whole rendering: when
    the forces before it can be drawn, a force without a "vector" key makes
    [draw_free_body] raise KeyError, and a force whose vector makes
    [parse_vector] raise makes it raise that exception; nothing is returned
    for the other forces. *)
Theorem render_aborts_at_first_failure
        (before after : list (gmap string pyval)) (force : gmap string pyval)
        (object_name : string) :
  Forall (fun f => exists vec, drawable f vec) before ->
  (force !! "vector" = None ->
   draw_free_body (before ++ force :: after) object_name = Raised KeyError) /\
  (forall v e,
      force !! "vector" = Some v -> parse_vector v = Raised e ->
      draw_free_body (before ++ force :: after) object_name = Raised e).
Proof.
  intros Hbefore. apply drawable_all in Hbefore as [vecs Hvecs].
  assert (exists dwg, draw_forces (init_drawing object_name) 0 before = Returned dwg)
    as [dwg Hd].
  { eexists. apply draw_forces_elements. eauto. }
  unfold draw_free_body, free_body_drawing.
  rewrite draw_forces_app, Hd. cbn [mbind outcome_bind draw_forces].
  unfold draw_force, py_getitem. split.
  - intros ->. reflexivity.
  - intros v e -> Hp. cbn [mbind outcome_bind]. rewrite Hp. reflexivity.
Qed.

End WithLib.

(** *** Examples on one drawing *)

Lemma sample_drawing :
  exists dwg, free_body_drawing (lib := Reference.lib) sample_forces "Body" = Returned dwg.
Proof. eexists. reflexivity. Qed.

Lemma sample_first : drawable (lib := Reference.lib) (labelled 0 (components 3 4)) (3, 4).
Proof. eexists. split; reflexivity. Qed.

Lemma sample_second :
  drawable (lib := Reference.lib) (labelled 1 (PStr "push hard")) (0, 0).
Proof. eexists. split; reflexivity. Qed.

Lemma arrow_colour_by_position_witness :
  exists dwg a,
    free_body_drawing (lib := Reference.lib) sample_forces "Body" = Returned dwg /\
    arrow_list dwg !! 1%nat = Some a /\
    arrow_stroke a = "blue"%string.
Proof.
  destruct sample_drawing as [dwg Hd].
  destruct (arrow_colour_by_position _ _ _ 1%nat _ _ Hd eq_refl sample_second)
    as (a & c & Ha & _ & Hcol & _).
  exists dwg, a. repeat split; [assumption | assumption |].
  cbn in Hcol. congruence.
Defined.

Lemma label_supplied_or_generated_witness :
  exists dwg c,
    free_body_drawing (lib := Reference.lib) sample_forces "Body" = Returned dwg /\
    caption_list dwg !! 1%nat = Some c /\
    caption_text c = PStr "F1".
Proof.
  destruct sample_drawing as [dwg Hd].
  destruct (label_supplied_or_generated _ _ _ 0%nat _ _ _ Hd eq_refl sample_first)
    as (a & c & _ & Hc & Hlabel & _).
  exists dwg, c. repeat split; [assumption | assumption |].
  apply Hlabel. reflexivity.
Defined.

Lemma drawing_structure_witness :
  exists dwg,
    free_body_drawing (lib := Reference.lib) sample_forces "Body" = Returned dwg /\
    defs dwg = [arrow_marker] /\ length (elements dwg) = 6%nat.
Proof.
  destruct sample_drawing as [dwg Hd].
  destruct (drawing_structure _ _ _ Hd) as (_ & Hdefs & _ & Hlen & _).
  exists dwg. repeat split; assumption.
Defined.

Lemma render_aborts_at_first_failure_witness :
  draw_free_body (lib := Reference.lib)
    [labelled 0 (components 3 4); {["label" := PStr "Weight"]}; labelled 2 (components 0 5)]
    "Body" = Raised KeyError /\
  draw_free_body (lib := Reference.lib)
    [labelled 0 (components 3 4); labelled 1 (PList [PStr "a"; PStr "b"])]
    "Body" = Raised ValueError.
Proof.
  assert (Forall (fun f => exists vec, drawable (lib := Reference.lib) f vec)
                 [labelled 0 (components 3 4)]) as Hbefore.
  { constructor; [exists (3, 4); exact sample_first | constructor]. }
  split.
  - apply (proj1 (render_aborts_at_first_failure (lib := Reference.lib)
                    [labelled 0 (components 3 4)] [labelled 2 (components 0 5)]
                    {["label" := PStr "Weight"]} "Body" Hbefore)).
    reflexivity.
  - apply (proj2 (render_aborts_at_first_failure (lib := Reference.lib)
                    [labelled 0 (components 3 4)] []
                    (labelled 1 (PList [PStr "a"; PStr "b"])) "Body" Hbefore)
             (PList [PStr "a"; PStr "b"]) ValueError); reflexivity.
Defined.

End RendererExtra.

(** ** diagram/diagram.py: the net force of vectors *)

Module NetForceExtra.
Import PyMath PyFacts Diagram NetView.
Open Scope R_scope.


Section WithLib.
Context {lib : PyLib}.

Lemma sum_forces_normalised (forces : list pyval) :
  forall (net r : R * R),
    sum_forces net forces = Returned r <->
    exists vecs, normalised forces vecs /\ r = accumulate net vecs.
Proof.
  unfold normalised, accumulate.
  induction forces as [| f rest IH]; intros net r; cbn [sum_forces].
  - split.
    + intros Hr. injection Hr as <-. exists []. split; [constructor | reflexivity].
    + intros (vecs & Hf & ->). apply Forall2_nil_inv_l in Hf as ->. reflexivity.
  - split.
    + intros Hr. destruct (parse_vector f) as [v | e] eqn:Hp; [| discriminate].
      cbn [mbind outcome_bind] in Hr. apply IH in Hr as (vecs & Hvecs & ->).
      exists (v :: vecs). split; [constructor; assumption | reflexivity].
    + intros (vecs & Hf & ->).
      apply Forall2_cons_inv_l in Hf as (v & vecs' & Hp & Hvecs & ->).
      rewrite Hp. cbn [mbind outcome_bind fold_left]. apply IH. eauto.
Qed.



Lemma sum_forces_skip_zero (before after : list pyval) (f : pyval) :
  parse_vector f = Returned (0, 0) ->
  forall net, sum_forces net (before ++ f :: after) = sum_forces net (before ++ after).
Proof.
  intros Hf. induction before as [| g rest IH]; intros net; cbn [app sum_forces].
  - rewrite Hf. cbn [mbind outcome_bind fst snd].
    replace (fst net + 0, snd net + 0) with net; [reflexivity |].
    destruct net as [x y]. cbn [fst snd]. f_equal; lra.
  - destruct (parse_vector g) as [v | e]; [| reflexivity].
    cbn [mbind outcome_bind]. apply IH.
Qed.

(** X20. An entry that is normalised to the zero vector, as every entry of
    unrecognised shape is, does not change the outcome of [net_force]: it is
    the outcome for the list without the entry. *)
Theorem net_force_ignores_zero_entries (before after : list pyval) (f : pyval) :
  parse_vector f = Returned (0, 0) ->
  net_force (before ++ f :: after) = net_force (before ++ after).
Proof.
  intros Hf. unfold net_force, net_force_report.
  rewrite (sum_forces_skip_zero before after f Hf). reflexivity.
Qed.

Lemma sum_forces_app (before after : list pyval) :
  forall net,
    sum_forces net (before ++ after) =
    (net' ← sum_forces net before; sum_forces net' after).
Proof.
  induction before as [| f rest IH]; intros net; cbn [app sum_forces].
  - reflexivity.
  - destruct (parse_vector f) as [v | e]; [| reflexivity].
    cbn [mbind outcome_bind]. apply IH.
Qed.

(** X23. One entry on which [parse_vector] raises aborts [net_force]: when
    the entries before it are normalised without raising, the call raises
    the exception of that entry, whatever follows it. *)
Theorem net_force_aborts_at_first_failure
        (before after : list pyval) (f : pyval) (e : exn) :
  Forall (fun g => exists vec, parse_vector g = Returned vec) before ->
  parse_vector f = Raised e ->
  net_force (before ++ f :: after) = Raised e.
Proof.
  intros Hbefore Hf.
  assert (exists net, sum_forces (0, 0) before = Returned net) as [net Hnet].
  { assert (exists vecs, normalised before vecs) as [vecs Hvecs].
    { induction Hbefore as [| g rest [vec Hvec] _ [vecs Hvecs]].
      - exists []. constructor.
      - exists (vec :: vecs). constructor; assumption. }
    eexists. apply sum_forces_normalised. eauto. }
  unfold net_force, net_force_report.
  rewrite sum_forces_app, Hnet. cbn [mbind outcome_bind sum_forces].
  rewrite Hf. reflexivity.
Qed.

End WithLib.


Lemma net_force_ignores_zero_entries_witness :
  net_force (lib := Reference.lib) [components 3 4; PStr "push hard"; components 0 5] =
  net_force (lib := Reference.lib) [components 3 4; components 0 5].
Proof.
  apply (net_force_ignores_zero_entries (lib := Reference.lib)
           [components 3 4] [components 0 5] (PStr "push hard")).
  reflexivity.
Defined.

Lemma net_force_aborts_at_first_failure_witness :
  net_force (lib := Reference.lib)
    [components 3 4; PList [PStr "a"; PStr "b"]; components 0 5] = Raised ValueError.
Proof.
  apply (net_force_aborts_at_first_failure (lib := Reference.lib)
           [components 3 4] [components 0 5] (PList [PStr "a"; PStr "b"]) ValueError).
  - constructor; [exists (3, 4); reflexivity | constructor].
  - reflexivity.
Defined.

End NetForceExtra.

(** ** diagram/diagram.py: [smart_diagram] *)

Module SmartExtra.
Import PyMath PyFacts Svg SvgView Diagram DiagramView SmartView RendererExtra.
Open Scope R_scope.

Section WithLib.
Context {lib : PyLib}.

Lemma scalars_dropped (forces : list pyval) :
  Forall (fun f => is_scalar f = true) forces ->
  forall idx, force_dicts_from idx forces = [].
Proof.
  induction 1 as [| f rest Hf _ IH]; intros idx; cbn [force_dicts_from]; [reflexivity |].
  rewrite IH. destruct f; try discriminate Hf; reflexivity.
Qed.

(** X24. Forces given as raw JSON numbers (or booleans, or null) are all
    dropped by [smart_diagram]: the markup returned is that of a diagram
    without forces, the circle and the object name alone. *)
Theorem smart_diagram_drops_raw_numbers (forces : list pyval) (object_name : string) :
  Forall (fun f => is_scalar f = true) forces ->
  smart_drawing forces object_name = Returned (init_drawing object_name) /\
  smart_diagram forces object_name = draw_free_body [] object_name.
Proof.
  intros Hs. unfold smart_drawing, smart_diagram, force_dicts.
  rewrite (scalars_dropped forces Hs 0). split; reflexivity.
Qed.

End WithLib.

Lemma smart_diagram_drops_raw_numbers_witness :
  smart_diagram (lib := Reference.lib) [PNum 20; PNum 5; PNone] "Cart" =
  draw_free_body (lib := Reference.lib) [] "Cart".
Proof.
  apply (smart_diagram_drops_raw_numbers (lib := Reference.lib) [PNum 20; PNum 5; PNone]).
  repeat constructor.
Defined.

End SmartExtra.

(** ** math/math_server.py: the order of the evaluators *)

Module MathServerExtra.
Import MathServer.

Section WithEvaluators.
Context {ev : Evaluators}.

Lemma pint_eval_starts (expr : string) :
  exists rest, calls (pint_eval expr) = Pint :: rest.
Proof.
  unfold pint_eval, call. cbn [mbind traced_bind mret traced_ret calls result].
  destruct (parse_expression expr); cbn [calls app]; eauto.
Qed.

Lemma sympy_eval_starts (expr : string) :
  exists rest, calls (sympy_eval expr) = SymPy :: rest.
Proof.
  unfold sympy_eval, call. cbn [mbind traced_bind mret traced_ret calls result].
  destruct (sympify expr); cbn [calls app]; eauto.
Qed.

(** X27. [evaluate_expression] always tries pint first, and calls sympy
    exactly when the pint evaluation failed; when sympy then succeeds, its
    text is the answer and the cause of the pint failure appears nowhere in
    it: the answer is the same for every cause. *)
Theorem evaluate_expression_order (expr : string) :
  (exists rest, fst (evaluate_traced expr) = Pint :: rest) /\
  (SymPy ∈ fst (evaluate_traced expr) <->
   exists pint_exc, result (pint_eval expr) = Failure pint_exc) /\
  (forall pint_exc text,
      result (pint_eval expr) = Failure pint_exc ->
      result (sympy_eval expr) = Success text ->
      evaluate_expression expr = text).
Proof.
  destruct (pint_eval_starts expr) as [prest Hp].
  destruct (sympy_eval_starts expr) as [srest Hs].
  unfold evaluate_expression, evaluate_traced, try_except.
  split; [| split].
  - destruct (result (pint_eval expr)); cbn [fst]; rewrite Hp; cbn [app]; eauto.
  - destruct (result (pint_eval expr)) as [text | cause] eqn:Hr; cbn [fst]; split.
    + intros Hin. apply MathServerProps.pint_eval_calls in Hin. discriminate.
    + intros [c Hc]. discriminate.
    + eauto.
    + intros _. apply elem_of_app. right.
      destruct (result (sympy_eval expr)); cbn [fst]; rewrite Hs;
        cbn [app]; apply elem_of_cons; left; reflexivity.
  - intros pint_exc text -> ->. reflexivity.
Qed.

End WithEvaluators.

Lemma evaluate_expression_order_witness :
  evaluate_expression (ev := Reference.evaluators) "2 + 2" = "2 + 2 = 4" /\
  SymPy ∈ fst (evaluate_traced (ev := Reference.evaluators) "2 + 2").
Proof.
  destruct (evaluate_expression_order (ev := Reference.evaluators) "2 + 2")
    as (_ & Hiff & Hanswer).
  split.
  - apply (Hanswer "UndefinedUnitError"); reflexivity.
  - apply Hiff. exists "UndefinedUnitError"%string. reflexivity.
Defined.

End MathServerExtra.

(** ** diagram/diagram.py: when [parse_vector] raises *)

Module ParseExtra.
Import PyMath Diagram VectorsTools.
Open Scope R_scope.

Section WithLib.
Context {lib : PyLib}.

Lemma py_number_raises (v : pyval) (e : exn) :
  py_number v = Raised e -> e = TypeError.
Proof. destruct v; cbn [py_number]; intros H; congruence. Qed.

(** X29. Numbers written as text are accepted inside a list of two
    elements, where each element goes through [float], but rejected inside
    a mapping, where they meet float arithmetic: [["3", "4"]] is normalised to
    (3, 4) while a mapping whose magnitude is the text "3" raises
    TypeError. *)
Theorem numeric_text_in_list_not_in_mapping (s t : string) (x y : R) (angle : pyval) :
  float_of_str s = Some x -> float_of_str t = Some y ->
  parse_vector (PList [PStr s; PStr t]) = Returned (x, y) /\
  parse_vector (PDict (<["magnitude" := PStr s]> (<["angle_deg" := angle]> ∅))) =
    Raised TypeError.
Proof.
  intros Hs Ht. split.
  - cbn [parse_vector py_float]. rewrite Hs, Ht. reflexivity.
  - cbn [parse_vector].
    change (py_has_key (<["magnitude" := PStr s]> (<["angle_deg" := angle]> ∅)) "magnitude")
      with true.
    change (py_has_key (<["magnitude" := PStr s]> (<["angle_deg" := angle]> ∅)) "angle_deg")
      with true.
    cbn [andb].
    change (py_getitem (<["magnitude" := PStr s]> (<["angle_deg" := angle]> ∅)) "angle_deg")
      with (Returned angle).
    change (py_getitem (<["magnitude" := PStr s]> (<["angle_deg" := angle]> ∅)) "magnitude")
      with (Returned (PStr s)).
    cbn [mbind outcome_bind].
    destruct (py_number angle) as [a | e] eqn:Ha; [reflexivity |].
    rewrite (py_number_raises _ _ Ha). reflexivity.
Qed.

End WithLib.

Lemma numeric_text_in_list_not_in_mapping_witness :
  exists x y,
    x = 3 /\ y = 4 /\
    parse_vector (lib := Reference.lib) (PList [PStr "3"; PStr "4"]) = Returned (x, y).
Proof.
  eexists. eexists.
  split; [| split].
  3: { apply (proj1 (numeric_text_in_list_not_in_mapping (lib := Reference.lib)
                       "3" "4" _ _ PNone eq_refl eq_refl)). }
  - DiagramProps.literal.
  - DiagramProps.literal.
Defined.

End ParseExtra.
